(** * Pre-trade gate and order executor

    A shallow embedding of [rules_gate.py] (trading windows, protected
    tickers, per-window trade counter) and of [orders.py] (risk check,
    payload construction, dry-run or live dispatch), with the properties
    the specification states about them.

    Python integers are [Z], strings are [string] (symbols are taken to be
    ASCII), dictionaries that are only built and handed on are association
    lists in insertion order, the module-level counter dictionary is a
    [gmap], the protected set is a [gset]. Quantities are integers, on
    which [int(qty)] is the identity. The wall clock is a sequence of
    readings consumed one per call of [datetime.now]; logging and the
    imported collaborators ([client], [risk]) are recorded as a trace of
    events, and what a collaborator answers is a parameter. *)

From Stdlib Require Import ZArith String Ascii List.
From stdpp Require Import base gmap strings list.

Local Open Scope string_scope.
Local Open Scope list_scope.
Local Open Scope Z_scope.

(** ** Python values that cross a function boundary *)

Module Py.

#[warnings="-register-all"]
Inductive value : Type :=
| VNone
| VBool (b : bool)
| VInt (z : Z)
| VStr (s : string)
| VTuple (items : list value)
| VDict (fields : list (string * value)).

(** [d[k]] on a dictionary literal. *)
Fixpoint assoc (k : string) (fields : list (string * value)) : option value :=
  match fields with
  | [] => None
  | (k', v) :: rest => if String.eqb k k' then Some v else assoc k rest
  end.

Definition get (k : string) (v : value) : option value :=
  match v with
  | VDict fields => assoc k fields
  | _ => None
  end.

Definition keys (v : value) : list string :=
  match v with
  | VDict fields => map fst fields
  | _ => []
  end.

(** [str.upper()] on ASCII text. *)
Definition upper_ascii (c : ascii) : ascii :=
  let n := nat_of_ascii c in
  if (andb (Nat.leb 97 n) (Nat.leb n 122)) then ascii_of_nat (n - 32) else c.

Fixpoint upper (s : string) : string :=
  match s with
  | EmptyString => EmptyString
  | String c rest => String (upper_ascii c) (upper rest)
  end.

End Py.

(** ** rules_gate.py *)

Module RulesGate.

(** [datetime.time], compared field by field as CPython does. *)
Record time : Type := mk_time
  { hour : Z; minute : Z; second : Z; microsecond : Z }.

Record date : Type := mk_date { year : Z; month : Z; day : Z }.

Record datetime : Type := mk_datetime { dt_date : date; dt_time : time }.

Definition time_cmp (a b : time) : comparison :=
  match hour a ?= hour b with
  | Eq =>
      match minute a ?= minute b with
      | Eq =>
          match second a ?= second b with
          | Eq => microsecond a ?= microsecond b
          | c => c
          end
      | c => c
      end
  | c => c
  end.

Definition time_le (a b : time) : bool :=
  match time_cmp a b with Gt => false | _ => true end.

(** [date.isoformat()]: YYYY-MM-DD. *)
Definition digit (n : Z) : ascii := ascii_of_nat (48 + Z.to_nat (n mod 10)).

Definition pad2 (n : Z) : string :=
  String (digit (n / 10)) (String (digit n) EmptyString).

Definition pad4 (n : Z) : string :=
  String (digit (n / 1000)) (String (digit (n / 100)) (pad2 n)).

Definition isoformat (d : date) : string :=
  pad4 (year d) +:+ "-" +:+ pad2 (month d) +:+ "-" +:+ pad2 (day d).

Definition TRADE_WINDOWS : list (time * time) :=
  [ (mk_time 6 30 0 0, mk_time 7 30 0 0);
    (mk_time 12 0 0 0, mk_time 13 0 0 0) ].

Definition MAX_TRADES_PER_WINDOW : Z := 2.

Definition PROTECTED_NEVER_SELL : gset string := {[ "CWH" ]}.

(** The module's mutable state: the counter dictionary, and how many
    times the wall clock has been read so far. *)
Record state : Type := mk_state
  { reads : nat;
    _window_trades : gmap (string * nat) Z }.

Definition Gate (A : Type) : Type := state -> A * state.

Definition ret {A} (a : A) : Gate A := fun st => (a, st).

Definition bind {A B} (m : Gate A) (k : A -> Gate B) : Gate B :=
  fun st => let (a, st') := m st in k a st'.

Declare Scope gate_scope.
Delimit Scope gate_scope with gate.
Notation "x <- m ;; k" := (bind m (fun x => k))
  (at level 100, m at next level, right associativity) : gate_scope.

(** [_window_trades.get(k, 0)] *)
Definition count_of (st : state) (k : string * nat) : Z :=
  default 0 (_window_trades st !! k).

(** One more reading of the wall clock. *)
Definition tick (st : state) : state :=
  {| reads := S (reads st); _window_trades := _window_trades st |}.

(** The condition of the second check of [allow_order]. *)
Definition never_sell (symbol side : string) : bool :=
  String.eqb side "Sell" && bool_decide (Py.upper symbol ∈ PROTECTED_NEVER_SELL).

Section WithClock.

(** [clock n] is what the n-th call of [datetime.now(PT)] returns. *)
Variable clock : nat -> datetime.

Definition now_PT : Gate datetime :=
  fun st => (clock (reads st), tick st).

Definition covers (now : time) (w : time * time) : bool :=
  time_le (fst w) now && time_le now (snd w).

(** [now = now or datetime.now(PT).time()]: a [time] object is always
    truthy, so the clock is read exactly when no argument is given. *)
Definition in_window (now : option time) : Gate bool :=
  (now <- match now with
          | Some t => ret t
          | None => (dt <- now_PT ;; ret (dt_time dt))
          end ;;
   ret (existsb (covers now) TRADE_WINDOWS))%gate.

Fixpoint first_window (idx : nat) (ws : list (time * time)) (dt : datetime)
  : option (string * nat) :=
  match ws with
  | [] => None
  | w :: rest =>
      if covers (dt_time dt) w then Some (isoformat (dt_date dt), idx)
      else first_window (S idx) rest dt
  end.

(** The key is a non-empty tuple or [None], so [if wk:] in the callers
    is the test for [Some]. *)
Definition window_key (dt : option datetime) : Gate (option (string * nat)) :=
  (dt <- match dt with
         | Some d => ret d
         | None => now_PT
         end ;;
   ret (first_window 0 TRADE_WINDOWS dt))%gate.

Definition get_count (wk : string * nat) : Gate Z :=
  fun st => (count_of st wk, st).

Definition set_count (wk : string * nat) (n : Z) : Gate unit :=
  fun st => (tt, {| reads := reads st;
                    _window_trades := <[ wk := n ]> (_window_trades st) |}).

Definition allow_order (symbol side : string) : Gate (bool * string) :=
  (inw <- in_window None ;;
   if negb inw then ret (false, "outside_playbook_window")
   else if never_sell symbol side
   then ret (false, "protected_ticker_never_sell")
   else
     wk <- window_key None ;;
     match wk with
     | Some k =>
         count <- get_count k ;;
         if MAX_TRADES_PER_WINDOW <=? count
         then ret (false, "max_trades_this_window")
         else ret (true, "")
     | None => ret (true, "")
     end)%gate.

Definition record_order : Gate unit :=
  (wk <- window_key None ;;
   match wk with
   | Some k => count <- get_count k ;; set_count k (count + 1)
   | None => ret tt
   end)%gate.

(** Whether the n-th clock reading falls in a window, and in which
    bucket. *)
Definition open_at (n : nat) : bool :=
  existsb (covers (dt_time (clock n))) TRADE_WINDOWS.

Definition bucket_at (n : nat) : option (string * nat) :=
  first_window 0 TRADE_WINDOWS (clock n).

End WithClock.

End RulesGate.

(** ** orders.py *)

Module Orders.

Import Py.

Inductive level : Type := ERROR | INFO.

(** What a call does to the outside world, in the order it happens:
    log records, and calls of the imported collaborators ([client],
    [risk]), whose bodies are not part of this module. *)
Inductive event : Type :=
| Log (lvl : level) (fmt : string) (args : list value)
| CheckRiskLimits
| EnforceLimits (auto_liquidate : bool)
| PositionSizeByAtr (symbol : string) (risk_per_trade stop_atr_mult : value)
| ApiGet (path : string)
| ApiPost (path : string) (body : value).

Inductive exn : Type :=
| RuntimeError (msg : string)
| CollaboratorError (detail : string).

Inductive result (A : Type) : Type :=
| Ok (a : A)
| Raised (e : exn).
Arguments Ok {A} a.
Arguments Raised {A} e.

(** The names imported from [config]. *)
Record config : Type := mk_config
  { ACCOUNT_ID : string;
    MAX_POS_SIZE : Z;
    KILL_SWITCH : bool;
    AUTO_LIQUIDATE : bool;
    DRY_RUN : bool;
    OFFLINE_MODE : bool }.

(** The names imported from [client] and [risk]: what each returns (or
    raises) may depend on everything that happened before the call. *)
Record collaborators : Type := mk_collaborators
  { check_risk_limits_answer : list event -> result (bool * value);
    enforce_limits_answer : bool -> list event -> result unit;
    position_size_by_atr_answer :
      string -> value -> value -> list event -> result Z;
    api_get_answer : string -> list event -> result value;
    api_post_answer : string -> value -> list event -> result value }.

Definition Exec (A : Type) : Type := list event -> result A * list event.

Definition ret {A} (a : A) : Exec A := fun t => (Ok a, t).

Definition raise {A} (e : exn) : Exec A := fun t => (Raised e, t).

Definition bind {A B} (m : Exec A) (k : A -> Exec B) : Exec B :=
  fun t =>
    match m t with
    | (Ok a, t') => k a t'
    | (Raised e, t') => (Raised e, t')
    end.

Definition call {A} (ev : event) (answer : list event -> result A) : Exec A :=
  fun t => (answer t, t ++ [ev]).

Definition log (lvl : level) (fmt : string) (args : list value) : Exec unit :=
  fun t => (Ok tt, t ++ [Log lvl fmt args]).

Declare Scope exec_scope.
Delimit Scope exec_scope with exec.
Notation "x <- m ;; k" := (bind m (fun x => k))
  (at level 100, m at next level, right associativity) : exec_scope.
Notation "m >> k" := (bind m (fun _ => k))
  (at level 100, right associativity) : exec_scope.

Section WithEnvironment.

Variable cfg : config.
Variable ext : collaborators.

Definition check_risk_limits : Exec (bool * value) :=
  call CheckRiskLimits (check_risk_limits_answer ext).

Definition enforce_limits (auto_liquidate : bool) : Exec unit :=
  call (EnforceLimits auto_liquidate) (enforce_limits_answer ext auto_liquidate).

Definition position_size_by_atr (symbol : string)
    (risk_per_trade stop_atr_mult : value) : Exec Z :=
  call (PositionSizeByAtr symbol risk_per_trade stop_atr_mult)
       (position_size_by_atr_answer ext symbol risk_per_trade stop_atr_mult).

Definition api_get (path : string) : Exec value :=
  call (ApiGet path) (api_get_answer ext path).

Definition api_post (path : string) (body : value) : Exec value :=
  call (ApiPost path body) (api_post_answer ext path body).

Definition account_snapshot : Exec value :=
  api_get ("/v1/accounts/" +:+ ACCOUNT_ID cfg).

Definition risk_ok (symbol : string) (qty : Z) (price : value) : Exec bool :=
  (if KILL_SWITCH cfg then
     log ERROR "Kill switch active - blocking orders" [] >>
     ret false
   else if MAX_POS_SIZE cfg <? Z.abs qty then
     log ERROR "Qty %s exceeds MAX_POS_SIZE %s"
         [VInt qty; VInt (MAX_POS_SIZE cfg)] >>
     ret false
   else if OFFLINE_MODE cfg then
     log INFO "OFFLINE_MODE=true -> skipping broker risk checks" [] >>
     ret true
   else
     r <- check_risk_limits ;;
     let '(ok, reasons) := r in
     if negb ok then
       log ERROR "Risk limits breached: %s" [reasons] >>
       (if AUTO_LIQUIDATE cfg then enforce_limits true else ret tt) >>
       ret false
     else ret true)%exec.

Definition _simulate_order (payload : value) : Exec value :=
  (log INFO "[DRY_RUN] Simulated order: %s" [payload] >>
   ret (VDict [("status", VStr "simulated"); ("payload", payload)]))%exec.

(** The dictionary literal bound to [payload] in [place_equity_market]. *)
Definition payload (symbol : string) (qty : Z) : value :=
  VDict [ ("accountId", VStr (ACCOUNT_ID cfg));
          ("orderType", VStr "Market");
          ("instrument", VDict [("symbol", VStr symbol); ("assetType", VStr "EQ")]);
          ("quantity", VInt (Z.abs qty));
          ("instruction", VStr (if 0 <? qty then "Buy" else "Sell")) ].

Definition place_equity_market (symbol : string) (qty : Z) : Exec value :=
  (ok <- risk_ok symbol qty VNone ;;
   if negb ok then raise (RuntimeError "Risk check failed - order blocked")
   else
     log INFO "Placing market order: %s" [payload symbol qty] >>
     if DRY_RUN cfg then _simulate_order (payload symbol qty)
     else api_post "/v1/accounts/orders" (payload symbol qty))%exec.

Definition place_equity_size_by_atr (symbol : string)
    (risk_per_trade stop_atr_mult : value) : Exec value :=
  (qty <- position_size_by_atr symbol risk_per_trade stop_atr_mult ;;
   log INFO "Computed qty=%s by ATR sizing for %s" [VInt qty; VStr symbol] >>
   place_equity_market symbol (if 0 <? qty then qty else 1))%exec.

End WithEnvironment.

(** The value Python hands back for a risk decision: a bare boolean. *)
Definition decision_value (r : result bool) : option value :=
  match r with
  | Ok b => Some (VBool b)
  | Raised _ => None
  end.

(** The format strings of the log records in a trace. *)
Definition log_messages (t : list event) : list string :=
  omap (fun ev => match ev with Log _ fmt _ => Some fmt | _ => None end) t.

(** Whether an event is a call of an imported collaborator. *)
Definition is_external (ev : event) : bool :=
  match ev with
  | Log _ _ _ => false
  | _ => true
  end.

End Orders.

(** ** The caller's sequence and concrete environments *)

Module Scenario.

Import RulesGate.

(** Modelled from the spec: the caller that runs an intent through
    [allow_order] and then [record_order], which is not among the
    sources. The specification has the accepted trade recorded exactly
    once, right after the admission, and nothing recorded on a denial. *)
Definition gate_and_record (clock : nat -> datetime) (symbol side : string)
  : Gate (bool * string) :=
  (d <- allow_order clock symbol side ;;
   if fst d then (_ <- record_order clock ;; ret d) else ret d)%gate.

(** Sequential intents, one evaluated to completion before the next. *)
Fixpoint run_intents (clock : nat -> datetime) (intents : list (string * string))
  : Gate (list (bool * string)) :=
  match intents with
  | [] => ret []
  | (symbol, side) :: rest =>
      (d <- gate_and_record clock symbol side ;;
       ds <- run_intents clock rest ;;
       ret (d :: ds))%gate
  end.

(** A clock stuck at 06:45 on 2025-01-02, and one stuck at 09:00. *)
Definition morning : nat -> datetime :=
  fun _ => mk_datetime (mk_date 2025 1 2) (mk_time 6 45 0 0).

Definition midmorning : nat -> datetime :=
  fun _ => mk_datetime (mk_date 2025 1 2) (mk_time 9 0 0 0).

Definition fresh : state := mk_state 0 ∅.

Import Orders.

Definition cfg_kill : config :=
  mk_config "12345" 100 true false true true.

Definition cfg_offline_dry : config :=
  mk_config "12345" 100 false false true true.

Definition cfg_online_dry : config :=
  mk_config "12345" 100 false false true false.

Definition cfg_live : config :=
  mk_config "12345" 100 false false false false.

(** Collaborators that always answer, with the risk limits respected. *)
Definition calm : collaborators :=
  mk_collaborators
    (fun _ => Ok (true, Py.VNone))
    (fun _ _ => Ok tt)
    (fun _ _ _ _ => Ok 0)
    (fun _ _ => Ok (Py.VDict []))
    (fun _ _ _ => Ok (Py.VDict [("orderId", Py.VInt 1)])).

(** The same, with the sizer answering 333 and the risk service
    reporting a breach. *)
Definition breached : collaborators :=
  mk_collaborators
    (fun _ => Ok (false, Py.VStr "daily loss limit"))
    (fun _ _ => Ok tt)
    (fun _ _ _ _ => Ok 333)
    (fun _ _ => Ok (Py.VDict []))
    (fun _ _ _ => Ok (Py.VDict [("orderId", Py.VInt 1)])).

End Scenario.

(** ** Time of day as a number, repeated recording, and posted orders *)

Module Runs.

Import RulesGate Orders.

(** Microseconds since midnight. *)
Definition micros (t : time) : Z :=
  ((hour t * 60 + minute t) * 60 + second t) * 1000000 + microsecond t.

(** The field ranges [datetime.time] enforces when a value is built. *)
Definition well_formed (t : time) : Prop :=
  0 <= hour t < 24 /\ 0 <= minute t < 60 /\ 0 <= second t < 60
  /\ 0 <= microsecond t < 1000000.

(** [record_order()] called n times in a row. *)
Definition record_orders (clock : nat -> datetime) (n : nat) (st : state) : state :=
  Nat.iter n (fun s => snd (record_order clock s)) st.

(** How many of a list of decisions are admissions. *)
Definition allowed (ds : list (bool * string)) : Z :=
  Z.of_nat (length (List.filter fst ds)).

(** A clock that reads 07:30:00 sharp first and one microsecond later
    from then on. *)
Definition closing : nat -> datetime :=
  fun n => mk_datetime (mk_date 2025 1 2)
             (mk_time 7 30 0 (match n with O => 0 | S _ => 1 end)).

(** Five trades already counted in the first window of 2025-01-02. *)
Definition crowded : state := mk_state 0 {[ ("2025-01-02", 0%nat) := 5 ]}.

Definition is_post (ev : event) : bool :=
  match ev with
  | ApiPost _ _ => true
  | _ => false
  end.

(** Collaborators whose risk service and liquidation fail. *)
Definition failing : collaborators :=
  mk_collaborators
    (fun _ => Raised (CollaboratorError "timeout"))
    (fun _ _ => Raised (CollaboratorError "liquidation failed"))
    (fun _ _ _ _ => Raised (CollaboratorError "no ATR"))
    (fun _ _ => Ok (Py.VDict []))
    (fun _ _ _ => Ok (Py.VDict [])).

(** A breach reported, and the liquidation failing. *)
Definition breached_failing : collaborators :=
  mk_collaborators
    (fun _ => Ok (false, Py.VStr "daily loss limit"))
    (fun _ _ => Raised (CollaboratorError "liquidation failed"))
    (fun _ _ _ _ => Ok 333)
    (fun _ _ => Ok (Py.VDict []))
    (fun _ _ _ => Ok (Py.VDict [])).

Definition cfg_live_liquidate : config :=
  mk_config "12345" 100 false true false false.

(** Live with the kill switch on; dry run with liquidation on. *)
Definition cfg_kill_live : config :=
  mk_config "12345" 100 true false false false.

Definition cfg_dry_liquidate : config :=
  mk_config "12345" 100 false true true false.

End Runs.

(** ** options.py *)

Module Options.

(** Values that may sit in an option leg or in the payload built from
    it; unlike the equity payload, this one holds a list. *)
#[warnings="-register-all"]
Inductive json : Type :=
| JNone
| JBool (b : bool)
| JInt (z : Z)
| JStr (s : string)
| JList (items : list json)
| JDict (fields : list (string * json)).

Fixpoint lookup (k : string) (fields : list (string * json)) : option json :=
  match fields with
  | [] => None
  | (k', v) :: rest => if String.eqb k k' then Some v else lookup k rest
  end.

Definition field (k : string) (v : json) : option json :=
  match v with
  | JDict fields => lookup k fields
  | _ => None
  end.

Definition field_names (v : json) : list string :=
  match v with
  | JDict fields => map fst fields
  | _ => []
  end.

(** What the construction of the dictionary literal ends in. *)
Inductive built : Type :=
| Built (payload : json)
| KeyError (key : string).

(** [leg[key]], then the rest of the literal. *)
Definition item (leg : list (string * json)) (key : string)
    (k : json -> built) : built :=
  match lookup key leg with
  | Some v => k v
  | None => KeyError key
  end.

(** The items of the literal are evaluated in the order they are written:
    the three subscripts of [leg1], then those of [leg2]. *)
Definition build_vertical_payload (ACCOUNT_ID symbol : string)
    (leg1 leg2 : list (string * json)) (quantity : Z) (debit : bool) : built :=
  item leg1 "strike" (fun strike1 =>
  item leg1 "expiration" (fun expiration1 =>
  item leg1 "right" (fun right1 =>
  item leg2 "strike" (fun strike2 =>
  item leg2 "expiration" (fun expiration2 =>
  item leg2 "right" (fun right2 =>
  Built (JDict
    [ ("accountId", JStr ACCOUNT_ID);
      ("orderType", JStr (if debit then "NetDebit" else "NetCredit"));
      ("symbol", JStr symbol);
      ("quantity", JInt quantity);
      ("legs", JList
         [ JDict [ ("action", JStr "BuyToOpen"); ("quantity", JInt 1);
                   ("strike", strike1); ("expiration", expiration1);
                   ("right", right1) ];
           JDict [ ("action", JStr "SellToOpen"); ("quantity", JInt 1);
                   ("strike", strike2); ("expiration", expiration2);
                   ("right", right2) ] ]) ]))))))).

(** The first of the three keys a leg does not have. *)
Definition first_missing (leg : list (string * json)) : option string :=
  List.find (fun key => match lookup key leg with None => true | Some _ => false end)
            ["strike"; "expiration"; "right"].

Definition long_leg : list (string * json) :=
  [("strike", JInt 600); ("expiration", JStr "2025-08-15"); ("right", JStr "C");
   ("bid", JInt 15)].

Definition short_leg_no_right : list (string * json) :=
  [("strike", JInt 610); ("expiration", JStr "2025-08-15")].

End Options.

(** ** strategies.py *)

Module Strategies.

Section WithValues.

(** The values a result dictionary holds, with the two operations the
    function uses: a Python [str] seen as a value, and [str(v)]. *)
Variable V : Type.
Variable vstr : string -> V.
Variable str_of : V -> string.

Definition numeric_fields : list string :=
  ["size"; "stop_loss_pct"; "take_profit_pct"].

(** The body of the loop: for a name present in [result], the two
    assignments to [out], both reading [result]. *)
Definition format_step (result out : gmap string V) (name : string)
  : gmap string V :=
  match result !! name with
  | Some v => <[ name := vstr (str_of v) ]> (<[ "numeric_" +:+ name := v ]> out)
  | None => out
  end.

(** [out = result.copy()], then the loop over the three names. *)
Definition format_for_api (result : gmap string V) : gmap string V :=
  foldl (format_step result) result numeric_fields.

End WithValues.

(** A rendering to try the function on. *)
Definition sample_str (v : Py.value) : string :=
  match v with
  | Py.VStr s => s
  | Py.VInt 1000 => "1000"
  | _ => "0.02"
  end.

Definition sample_result : gmap string Py.value :=
  {[ "signal" := Py.VStr "buy"; "size" := Py.VInt 1000 ]}.

End Strategies.

(** ** sec_filings_pipeline.py *)

Module SecFilings.

(** What a field of a candidate holds: a string, an integer, or a float
    of integral value (the literal [0.0] is [SFloat 0]). *)
Inductive scalar : Type :=
| SStr (s : string)
| SInt (z : Z)
| SFloat (z : Z).

Fixpoint lookup (k : string) (fields : list (string * scalar)) : option scalar :=
  match fields with
  | [] => None
  | (k', v) :: rest => if String.eqb k k' then Some v else lookup k rest
  end.

(** The dictionary appended for a ticker. *)
Definition candidate (ticker why_now : string) : list (string * scalar) :=
  [ ("ticker", SStr ticker);
    ("setup", SStr "ToBeDecided");
    ("direction", SStr "n/a");
    ("contract", SStr "n/a");
    ("debit", SFloat 0);
    ("max_loss", SInt 0);
    ("max_profit", SInt 0);
    ("rr", SFloat 0);
    ("confidence", SInt 1);
    ("why_now", SStr why_now);
    ("do_not_trade_if",
     SStr "OI<1000 or bid/ask>0.20 or fails EMA/VWAP alignment");
    ("skip_reason", SStr "") ].

Definition ticker_in (c : list (string * scalar)) : string :=
  match lookup "ticker" c with
  | Some (SStr t) => t
  | _ => ""
  end.

Section WithValues.

(** The values a filing holds, as decoded from JSON, with what the
    function asks of them: truthiness, being a [str], and the text an
    f-string renders. *)
Variable V : Type.
Variable truthy : V -> bool.
Variable as_str : V -> option string.
Variable fmt : V -> string.

(** [f.get(key)] when it is truthy; a missing key gives [None], which
    is not. *)
Definition get_truthy (f : gmap string V) (key : string) : option V :=
  match f !! key with
  | Some v => if truthy v then Some v else None
  | None => None
  end.

(** [f.get(k1) or f.get(k2) or ... or ""], as rendered in the f-string. *)
Fixpoint first_text (f : gmap string V) (keys : list string) : string :=
  match keys with
  | [] => ""
  | key :: rest =>
      match get_truthy f key with
      | Some v => fmt v
      | None => first_text f rest
      end
  end.

(** [(f.get("ticker") or "").upper()]: [None] stands for the
    [AttributeError] of a truthy value that is not a string. *)
Definition ticker_of (f : gmap string V) : option string :=
  match get_truthy f "ticker" with
  | Some v =>
      match as_str v with
      | Some s => Some (Py.upper s)
      | None => None
      end
  | None => Some (Py.upper "")
  end.

Definition why_now (f : gmap string V) : string :=
  "Fresh " +:+ first_text f ["formType"]
  +:+ " filed at " +:+ first_text f ["filedAt"; "filingDate"]
  +:+ ". " +:+ first_text f ["linkToHtml"; "linkToFilingDetails"; "link"].

(** One turn of the loop on [(out, seen)]; [None] once the exception is
    raised. *)
Definition step (acc : option (list (list (string * scalar)) * gset string))
    (f : gmap string V) : option (list (list (string * scalar)) * gset string) :=
  match acc with
  | None => None
  | Some (out, seen) =>
      match ticker_of f with
      | None => None
      | Some ticker =>
          if decide (ticker = "") then Some (out, seen)
          else if decide (ticker ∈ seen) then Some (out, seen)
          else Some (out ++ [candidate ticker (why_now f)], {[ ticker ]} ∪ seen)
      end
  end.

Definition summarize_to_scanner_shape (filings : list (gmap string V))
  : option (list (list (string * scalar))) :=
  fst <$> foldl step (Some ([], ∅)) filings.

(** What holds of the candidates [new] appended while the loop runs over
    [fs], started with the set [seen0] and ended with [seen]: the set
    follows the tickers, no ticker is appended twice, the tickers are the
    non-empty unseen ones of [fs], and each candidate is built from the
    first filing of its ticker. *)
Definition loop_facts (fs : list (gmap string V)) (seen0 seen : gset string)
    (new : list (list (string * scalar))) : Prop :=
  (forall t, t ∈ seen <-> t ∈ seen0 \/ In t (map ticker_in new))
  /\ NoDup (map ticker_in new)
  /\ (forall t, In t (map ticker_in new)
                <-> t <> "" /\ (t ∉ seen0)
                    /\ exists f, In f fs /\ ticker_of f = Some t)
  /\ (forall e, In e new ->
        exists pre f post,
          fs = pre ++ f :: post
          /\ ticker_of f = Some (ticker_in e)
          /\ e = candidate (ticker_in e) (why_now f)
          /\ Forall (fun f' => ticker_of f' <> Some (ticker_in e)) pre)
  /\ (length new <= length fs)%nat.

End WithValues.

(** Filings to try the function on: values are [Py.value]s. *)
Definition truthy_value (v : Py.value) : bool :=
  match v with
  | Py.VNone => false
  | Py.VBool b => b
  | Py.VInt z => negb (z =? 0)
  | Py.VStr s => negb (String.eqb s "")
  | Py.VTuple items => match items with [] => false | _ => true end
  | Py.VDict fields => match fields with [] => false | _ => true end
  end.

Definition as_str_value (v : Py.value) : option string :=
  match v with
  | Py.VStr s => Some s
  | _ => None
  end.

Definition fmt_value (v : Py.value) : string :=
  match v with
  | Py.VStr s => s
  | _ => "?"
  end.

Definition filing_nvda : gmap string Py.value :=
  {[ "ticker" := Py.VStr "nvda"; "formType" := Py.VStr "8-K" ]}.

Definition filing_nvda_later : gmap string Py.value :=
  {[ "ticker" := Py.VStr "NVDA"; "formType" := Py.VStr "10-Q" ]}.

Definition filing_numbered : gmap string Py.value :=
  {[ "ticker" := Py.VInt 7 ]}.

End SecFilings.

(** ** strategies_seasonal.py *)

Module Seasonal.

Import RulesGate.

(** The fields [__init__] sets on a [SeasonalStrategy]. *)
Record strategy : Type := mk_strategy
  { seasonal_stocks : list string;
    start_dates : gmap string string;
    memorial_day : string;
    labor_day : string }.

(** The values [__init__] falls back on when the configuration is
    silent. *)
Definition defaults : strategy :=
  {| seasonal_stocks := ["CHTR"; "BIO"; "NDAQ"];
     start_dates := {[ "CHTR" := "06-20"; "BIO" := "07-01"; "NDAQ" := "07-30" ]};
     memorial_day := "05-25";
     labor_day := "09-01" |}.

(** [date.strftime('%m-%d')] *)
Definition month_day (m d : Z) : string := pad2 m +:+ "-" +:+ pad2 d.

Definition strftime_md (date : datetime) : string :=
  month_day (month (dt_date date)) (day (dt_date date)).

(** Month and day as one number, May 25 being 525. *)
Definition md_number (m d : Z) : Z := m * 100 + d.

(** The calendar ranges every [datetime] respects. *)
Definition calendar (m d : Z) : Prop := 1 <= m <= 12 /\ 1 <= d <= 31.

(** A computation that may read the wall clock: it is given the number
    of readings taken so far and hands back the new number. *)
Definition Clocked (A : Type) : Type := nat -> A * nat.

Definition ret {A} (a : A) : Clocked A := fun n => (a, n).

Definition bind {A B} (m : Clocked A) (k : A -> Clocked B) : Clocked B :=
  fun n => let (a, n') := m n in k a n'.

Declare Scope clocked_scope.
Delimit Scope clocked_scope with clocked.
Notation "x <- m ;; k" := (bind m (fun x => k))
  (at level 100, m at next level, right associativity) : clocked_scope.

Section WithClock.

Variable clock : nat -> datetime.
Variable self : strategy.

(** [if date is None: date = datetime.now()] *)
Definition or_now (date : option datetime) : Clocked datetime :=
  match date with
  | Some d => ret d
  | None => fun n => (clock n, S n)
  end.

Definition is_seasonal_period (date : option datetime) : Clocked bool :=
  (date <- or_now date ;;
   let current_month_day := strftime_md date in
   if String.leb (memorial_day self) current_month_day
      && String.leb current_month_day (labor_day self)
   then ret true
   else ret false)%clocked.

Definition is_stock_active (symbol : string) (date : option datetime)
  : Clocked bool :=
  (date <- or_now date ;;
   match start_dates self !! symbol with
   | None => ret false
   | Some start_date =>
       let current_month_day := strftime_md date in
       ret (String.leb start_date current_month_day)
   end)%clocked.

(** The loop of [get_active_symbols] over the remaining symbols. *)
Fixpoint collect_active (symbols : list string) (date : option datetime)
    (active_symbols : list string) : Clocked (list string) :=
  match symbols with
  | [] => ret active_symbols
  | symbol :: rest =>
      (active <- is_stock_active symbol date ;;
       collect_active rest date
         (if active then active_symbols ++ [symbol] else active_symbols))%clocked
  end.

Definition get_active_symbols (date : option datetime) : Clocked (list string) :=
  (in_season <- is_seasonal_period date ;;
   if negb in_season then ret []
   else collect_active (seasonal_stocks self) date [])%clocked.

End WithClock.

(** All month and day pairs of the calendar ranges. *)
Definition calendar_pairs : list (Z * Z) :=
  m ← seqZ 1 12; d ← seqZ 1 31; [(m, d)].

(** Whether, on the given month and day pairs, the order of the 'MM-DD'
    strings is the order of the numbers. *)
Definition order_agrees (pairs : list (Z * Z)) : bool :=
  forallb (fun a =>
    forallb (fun b =>
      Bool.eqb (String.leb (month_day (fst a) (snd a)) (month_day (fst b) (snd b)))
               (md_number (fst a) (snd a) <=? md_number (fst b) (snd b)))
      pairs)
    pairs.

Definition july_fourth : datetime := mk_datetime (mk_date 2025 7 4) (mk_time 10 0 0 0).

Definition always_july_fourth : nat -> datetime := fun _ => july_fourth.

Definition new_years_eve : datetime :=
  mk_datetime (mk_date 2025 12 31) (mk_time 10 0 0 0).

End Seasonal.

(** * Properties of orders.py *)

Section OrdersFacts.

Import Py Orders.

Variable cfg : config.
Variable ext : collaborators.

(** Unfolds the monadic plumbing of [Exec]. *)
Ltac exec_step :=
  unfold place_equity_size_by_atr, place_equity_market, _simulate_order,
    risk_ok, check_risk_limits, enforce_limits, position_size_by_atr,
    api_post, call, Orders.bind, log, Orders.ret, raise.

Lemma risk_ok_kill symbol qty price t :
  KILL_SWITCH cfg = true ->
  risk_ok cfg ext symbol qty price t
  = (Ok false, t ++ [Log ERROR "Kill switch active - blocking orders" []]).
Proof. intros Hk. exec_step. now rewrite Hk. Qed.

Lemma risk_ok_oversize symbol qty price t :
  KILL_SWITCH cfg = false ->
  MAX_POS_SIZE cfg < Z.abs qty ->
  risk_ok cfg ext symbol qty price t
  = (Ok false,
     t ++ [Log ERROR "Qty %s exceeds MAX_POS_SIZE %s"
               [VInt qty; VInt (MAX_POS_SIZE cfg)]]).
Proof.
  intros Hk Hq. exec_step. rewrite Hk.
  destruct (Z.ltb_spec (MAX_POS_SIZE cfg) (Z.abs qty)) as [_ | Hge]; [reflexivity | lia].
Qed.

Lemma risk_ok_offline symbol qty price t :
  KILL_SWITCH cfg = false ->
  Z.abs qty <= MAX_POS_SIZE cfg ->
  OFFLINE_MODE cfg = true ->
  risk_ok cfg ext symbol qty price t
  = (Ok true,
     t ++ [Log INFO "OFFLINE_MODE=true -> skipping broker risk checks" []]).
Proof.
  intros Hk Hq Ho. exec_step. rewrite Hk, Ho.
  destruct (Z.ltb_spec (MAX_POS_SIZE cfg) (Z.abs qty)) as [Hlt | _]; [lia | reflexivity].
Qed.

Lemma risk_ok_online_pass symbol qty price t reasons :
  KILL_SWITCH cfg = false ->
  Z.abs qty <= MAX_POS_SIZE cfg ->
  OFFLINE_MODE cfg = false ->
  check_risk_limits_answer ext t = Ok (true, reasons) ->
  risk_ok cfg ext symbol qty price t = (Ok true, t ++ [CheckRiskLimits]).
Proof.
  intros Hk Hq Ho Hc. exec_step. rewrite Hk, Ho.
  destruct (Z.ltb_spec (MAX_POS_SIZE cfg) (Z.abs qty)) as [Hlt | _]; [lia |].
  now rewrite Hc.
Qed.

(** What [place_equity_market] does once the risk check has answered. *)
Lemma place_after_denial symbol qty t t' :
  risk_ok cfg ext symbol qty VNone t = (Ok false, t') ->
  place_equity_market cfg ext symbol qty t
  = (Raised (RuntimeError "Risk check failed - order blocked"), t').
Proof.
  intros Hr. unfold place_equity_market, Orders.bind. now rewrite Hr.
Qed.

Lemma place_after_admission symbol qty t t' :
  risk_ok cfg ext symbol qty VNone t = (Ok true, t') ->
  place_equity_market cfg ext symbol qty t
  = if DRY_RUN cfg then
      (Ok (VDict [("status", VStr "simulated");
                  ("payload", payload cfg symbol qty)]),
       t' ++ [Log INFO "Placing market order: %s" [payload cfg symbol qty];
              Log INFO "[DRY_RUN] Simulated order: %s" [payload cfg symbol qty]])
    else
      (api_post_answer ext "/v1/accounts/orders" (payload cfg symbol qty)
         (t' ++ [Log INFO "Placing market order: %s" [payload cfg symbol qty]]),
       t' ++ [Log INFO "Placing market order: %s" [payload cfg symbol qty];
              ApiPost "/v1/accounts/orders" (payload cfg symbol qty)]).
Proof.
  intros Hr. unfold place_equity_market, Orders.bind at 1. rewrite Hr.
  cbn [negb]. exec_step.
  destruct (DRY_RUN cfg); cbn; now rewrite <- app_assoc.
Qed.

Lemma filter_external_logs (t : list event) (logs : list event) :
  forallb (fun ev => negb (is_external ev)) logs = true ->
  List.filter is_external (t ++ logs) = List.filter is_external t.
Proof.
  intros Hl. rewrite List.filter_app.
  assert (List.filter is_external logs = []) as ->.
  { induction logs as [| ev logs IH]; [reflexivity |].
    cbn in Hl. apply andb_prop in Hl as [Hev Hrest].
    cbn. destruct (is_external ev); [discriminate | now apply IH]. }
  apply app_nil_r.
Qed.

End OrdersFacts.

(** * Properties of rules_gate.py *)

Section GateFacts.

Import RulesGate.

Variable clock : nat -> datetime.

Lemma first_window_open idx ws dt :
  is_Some (first_window idx ws dt) <-> existsb (covers (dt_time dt)) ws = true.
Proof.
  revert idx. induction ws as [| w ws IH]; intros idx; cbn.
  - split; [intros [k Hk]; discriminate | discriminate].
  - destruct (covers (dt_time dt) w); cbn.
    + split; [reflexivity | eauto].
    + apply IH.
Qed.

Lemma bucket_open n k : bucket_at clock n = Some k -> open_at clock n = true.
Proof.
  intros Hk. apply (first_window_open 0).
  unfold bucket_at in Hk. rewrite Hk. eauto.
Qed.

Lemma in_window_run st :
  in_window clock None st = (open_at clock (reads st), tick st).
Proof. reflexivity. Qed.

Lemma window_key_run st :
  window_key clock None st = (bucket_at clock (reads st), tick st).
Proof. reflexivity. Qed.

(** [allow_order] as a decision table over its two clock readings. *)
Lemma allow_order_run symbol side st :
  allow_order clock symbol side st
  = if negb (open_at clock (reads st))
    then ((false, "outside_playbook_window"), tick st)
    else if never_sell symbol side
    then ((false, "protected_ticker_never_sell"), tick st)
    else match bucket_at clock (S (reads st)) with
         | Some k =>
             (if MAX_TRADES_PER_WINDOW <=? count_of st k
              then (false, "max_trades_this_window") else (true, ""),
              tick (tick st))
         | None => ((true, ""), tick (tick st))
         end.
Proof.
  unfold allow_order, RulesGate.bind. rewrite in_window_run.
  destruct (negb (open_at clock (reads st))); [reflexivity |].
  destruct (never_sell symbol side); [reflexivity |].
  rewrite window_key_run. cbn [reads tick].
  destruct (bucket_at clock (S (reads st))) as [k |]; [| reflexivity].
  unfold get_count, RulesGate.ret. cbn.
  now destruct (MAX_TRADES_PER_WINDOW <=? _).
Qed.

Lemma record_order_run st :
  record_order clock st
  = (tt, match bucket_at clock (reads st) with
         | Some k =>
             {| reads := S (reads st);
                _window_trades := <[ k := count_of st k + 1 ]> (_window_trades st) |}
         | None => tick st
         end).
Proof.
  unfold record_order, RulesGate.bind. rewrite window_key_run.
  now destruct (bucket_at clock (reads st)).
Qed.

Lemma never_sell_spec symbol side :
  never_sell symbol side = true
  <-> side = "Sell" /\ Py.upper symbol ∈ PROTECTED_NEVER_SELL.
Proof.
  unfold never_sell. rewrite andb_true_iff, String.eqb_eq, bool_decide_eq_true.
  reflexivity.
Qed.

End GateFacts.

Section ScenarioFacts.

Import RulesGate Scenario.

Variable clock : nat -> datetime.
Variable k : string * nat.

(** Every clock reading falls in the same (date, window) bucket. *)
Hypothesis same_bucket : forall n, bucket_at clock n = Some k.

Lemma gate_and_record_run symbol side st :
  never_sell symbol side = false ->
  gate_and_record clock symbol side st
  = if MAX_TRADES_PER_WINDOW <=? count_of st k
    then ((false, "max_trades_this_window"), tick (tick st))
    else ((true, ""),
          {| reads := S (S (S (reads st)));
             _window_trades := <[ k := count_of st k + 1 ]> (_window_trades st) |}).
Proof.
  intros Hns. unfold gate_and_record, RulesGate.bind.
  rewrite allow_order_run, Hns, same_bucket.
  rewrite (bucket_open clock _ _ (same_bucket (reads st))). cbn [negb].
  destruct (MAX_TRADES_PER_WINDOW <=? count_of st k); cbn [fst]; [reflexivity |].
  rewrite record_order_run, same_bucket. reflexivity.
Qed.

Lemma gate_and_record_allowed symbol side st :
  never_sell symbol side = false ->
  count_of st k < MAX_TRADES_PER_WINDOW ->
  gate_and_record clock symbol side st
  = ((true, ""),
     {| reads := S (S (S (reads st)));
        _window_trades := <[ k := count_of st k + 1 ]> (_window_trades st) |}).
Proof.
  intros Hns Hlt. rewrite gate_and_record_run by exact Hns.
  destruct (Z.leb_spec MAX_TRADES_PER_WINDOW (count_of st k)); [lia | reflexivity].
Qed.

Lemma gate_and_record_denied symbol side st :
  never_sell symbol side = false ->
  MAX_TRADES_PER_WINDOW <= count_of st k ->
  gate_and_record clock symbol side st
  = ((false, "max_trades_this_window"), tick (tick st)).
Proof.
  intros Hns Hge. rewrite gate_and_record_run by exact Hns.
  destruct (Z.leb_spec MAX_TRADES_PER_WINDOW (count_of st k)); [reflexivity | lia].
Qed.

Lemma count_of_recorded n m v :
  count_of {| reads := n; _window_trades := <[ k := v ]> m |} k = v.
Proof. unfold count_of. cbn. now rewrite lookup_insert_eq. Qed.

End ScenarioFacts.

(** * The claims *)

Import Py RulesGate Orders Scenario.

(** C1 (as stated, refuted). Three intents that pass every other check,
    run one after the other at 06:45 of the same day from an empty counter:
    the third denial does not carry the reason "window_trade_cap_reached". *)
Lemma window_cap_reason_counterexample :
  fst (run_intents morning [("AAPL", "Buy"); ("MSFT", "Buy"); ("NVDA", "Buy")] fresh)
  = [(true, ""); (true, ""); (false, "max_trades_this_window")]
  /\ fst (run_intents morning [("AAPL", "Buy"); ("MSFT", "Buy"); ("NVDA", "Buy")] fresh)
     <> [(true, ""); (true, ""); (false, "window_trade_cap_reached")].
Proof.
  assert (fst (run_intents morning
                 [("AAPL", "Buy"); ("MSFT", "Buy"); ("NVDA", "Buy")] fresh)
          = [(true, ""); (true, ""); (false, "max_trades_this_window")]) as Hrun
    by (vm_compute; reflexivity).
  split; [exact Hrun |]. rewrite Hrun. discriminate.
Qed.

(** C1 (amended). [allow_order] lets an order through only while the
    counter of the bucket it looks up is strictly below
    [MAX_TRADES_PER_WINDOW] = 2; and three
    sequential intents in one (date, window) bucket whose counter starts at
    zero, each recorded by [record_order] when let through and none of them a
    sale of a protected ticker, give two admissions followed by one denial
    with reason "max_trades_this_window", leaving the counter at 2. *)
Theorem window_cap_two_admissions_then_denial (clock : nat -> datetime) :
  (forall symbol side st k,
      fst (fst (allow_order clock symbol side st)) = true ->
      bucket_at clock (S (reads st)) = Some k ->
      count_of st k < MAX_TRADES_PER_WINDOW)
  /\ (forall k st i1 i2 i3,
         (forall n, bucket_at clock n = Some k) ->
         count_of st k = 0 ->
         never_sell (fst i1) (snd i1) = false ->
         never_sell (fst i2) (snd i2) = false ->
         never_sell (fst i3) (snd i3) = false ->
         fst (run_intents clock [i1; i2; i3] st)
         = [(true, ""); (true, ""); (false, "max_trades_this_window")]
         /\ count_of (snd (run_intents clock [i1; i2; i3] st)) k = 2).
Proof.
  split.
  - intros symbol side st k Hadm Hk. rewrite allow_order_run in Hadm.
    destruct (negb (open_at clock (reads st))); [discriminate |].
    destruct (never_sell symbol side); [discriminate |].
    rewrite Hk in Hadm.
    destruct (Z.leb_spec MAX_TRADES_PER_WINDOW (count_of st k)) as [Hge | Hlt];
      [discriminate | exact Hlt].
  - intros k st [s1 d1] [s2 d2] [s3 d3] Hsame H0 H1 H2 H3. cbn [fst snd] in *.
    cbn [run_intents]. unfold RulesGate.bind, RulesGate.ret.
    assert (MAX_TRADES_PER_WINDOW = 2) as Hcap by reflexivity.
    rewrite (gate_and_record_allowed clock k Hsame s1 d1 st H1) by lia.
    rewrite (gate_and_record_allowed clock k Hsame s2 d2 _ H2)
      by (rewrite count_of_recorded; lia).
    rewrite (gate_and_record_denied clock k Hsame s3 d3 _ H3)
      by (rewrite !count_of_recorded; lia).
    cbn [fst snd]. split; [reflexivity |].
    unfold tick. cbn [reads _window_trades].
    rewrite !count_of_recorded. lia.
Qed.

Lemma window_cap_two_admissions_then_denial_witness :
  fst (run_intents morning [("AAPL", "Buy"); ("MSFT", "Sell"); ("NVDA", "Buy")] fresh)
  = [(true, ""); (true, ""); (false, "max_trades_this_window")]
  /\ count_of (snd (run_intents morning
                      [("AAPL", "Buy"); ("MSFT", "Sell"); ("NVDA", "Buy")] fresh))
              ("2025-01-02", 0%nat) = 2.
Proof.
  apply (proj2 (window_cap_two_admissions_then_denial morning)
               ("2025-01-02", 0%nat) fresh
               ("AAPL", "Buy") ("MSFT", "Sell") ("NVDA", "Buy")).
  - intros n. reflexivity.
  - reflexivity.
  - vm_compute. reflexivity.
  - vm_compute. reflexivity.
  - vm_compute. reflexivity.
Defined.

(** C2 (as stated, refuted). With the kill switch on, [risk_ok] hands back
    the bare boolean [False]: no pair with a reason, and the string
    "kill_switch_active" is not in the log record either. *)
Lemma kill_switch_reason_counterexample :
  risk_ok cfg_kill calm "AAPL" 10 VNone []
  = (Ok false, [Log ERROR "Kill switch active - blocking orders" []])
  /\ decision_value (fst (risk_ok cfg_kill calm "AAPL" 10 VNone []))
     <> Some (VTuple [VBool false; VStr "kill_switch_active"])
  /\ ~ In "kill_switch_active"
        (log_messages (snd (risk_ok cfg_kill calm "AAPL" 10 VNone []))).
Proof.
  split; [reflexivity |]. split.
  - cbn. discriminate.
  - cbn. intros [Heq | []]. discriminate.
Qed.

(** C2 (amended). With [KILL_SWITCH] on, [risk_ok] returns [False] whatever
    the symbol, quantity and price, without calling any collaborator; the
    cause is only logged, as the error record
    "Kill switch active - blocking orders". *)
Theorem kill_switch_denies (cfg : config) (ext : collaborators)
    (symbol : string) (qty : Z) (price : value) (t : list event) :
  KILL_SWITCH cfg = true ->
  risk_ok cfg ext symbol qty price t
  = (Ok false, t ++ [Log ERROR "Kill switch active - blocking orders" []])
  /\ decision_value (fst (risk_ok cfg ext symbol qty price t)) = Some (VBool false)
  /\ List.filter is_external (snd (risk_ok cfg ext symbol qty price t))
     = List.filter is_external t.
Proof.
  intros Hk. rewrite (risk_ok_kill cfg ext symbol qty price t Hk). cbn [fst snd].
  repeat split. now apply filter_external_logs.
Qed.

Lemma kill_switch_denies_witness :
  risk_ok cfg_kill breached "CWH" (-7) VNone [CheckRiskLimits]
  = (Ok false,
     [CheckRiskLimits] ++ [Log ERROR "Kill switch active - blocking orders" []])
  /\ decision_value (fst (risk_ok cfg_kill breached "CWH" (-7) VNone [CheckRiskLimits]))
     = Some (VBool false)
  /\ List.filter is_external
       (snd (risk_ok cfg_kill breached "CWH" (-7) VNone [CheckRiskLimits]))
     = List.filter is_external [CheckRiskLimits].
Proof.
  apply (kill_switch_denies cfg_kill breached "CWH" (-7) VNone [CheckRiskLimits]).
  reflexivity.
Defined.

(** C3 (as stated, refuted). A quantity of 101 against a limit of 100 is
    denied with the bare boolean [False]; the string "max_position_exceeded"
    is neither returned nor logged. *)
Lemma max_position_reason_counterexample :
  risk_ok cfg_offline_dry calm "AAPL" 101 VNone []
  = (Ok false, [Log ERROR "Qty %s exceeds MAX_POS_SIZE %s" [VInt 101; VInt 100]])
  /\ decision_value (fst (risk_ok cfg_offline_dry calm "AAPL" 101 VNone []))
     <> Some (VTuple [VBool false; VStr "max_position_exceeded"])
  /\ ~ In "max_position_exceeded"
        (log_messages (snd (risk_ok cfg_offline_dry calm "AAPL" 101 VNone []))).
Proof.
  split; [reflexivity |]. split.
  - cbn. discriminate.
  - cbn. intros [Heq | []]. discriminate.
Qed.

(** C3 (amended). Every quantity with |q| > [MAX_POS_SIZE] makes [risk_ok]
    return [False]; no reason is returned, the cause is logged (the
    "Qty %s exceeds MAX_POS_SIZE %s" record, or the kill-switch record when
    the kill switch is on). The comparison is strict: with the kill switch
    off, |q| = [MAX_POS_SIZE] passes this check and is let through when the
    remaining check (offline bypass, or the risk service) passes. *)
Theorem oversize_quantity_denied (cfg : config) (ext : collaborators)
    (symbol : string) (qty : Z) (price : value) (t : list event) :
  (MAX_POS_SIZE cfg < Z.abs qty ->
   risk_ok cfg ext symbol qty price t
   = (Ok false,
      t ++ [if KILL_SWITCH cfg
            then Log ERROR "Kill switch active - blocking orders" []
            else Log ERROR "Qty %s exceeds MAX_POS_SIZE %s"
                     [VInt qty; VInt (MAX_POS_SIZE cfg)]]))
  /\ (Z.abs qty = MAX_POS_SIZE cfg ->
      KILL_SWITCH cfg = false ->
      (OFFLINE_MODE cfg = true ->
       risk_ok cfg ext symbol qty price t
       = (Ok true,
          t ++ [Log INFO "OFFLINE_MODE=true -> skipping broker risk checks" []]))
      /\ (forall reasons,
             OFFLINE_MODE cfg = false ->
             check_risk_limits_answer ext t = Ok (true, reasons) ->
             risk_ok cfg ext symbol qty price t = (Ok true, t ++ [CheckRiskLimits]))).
Proof.
  split.
  - intros Hq. destruct (KILL_SWITCH cfg) eqn:Hk.
    + now apply risk_ok_kill.
    + now apply risk_ok_oversize.
  - intros Hq Hk. split.
    + intros Ho. apply risk_ok_offline; [exact Hk | lia | exact Ho].
    + intros reasons Ho Hc.
      apply (risk_ok_online_pass cfg ext symbol qty price t reasons);
        [exact Hk | lia | exact Ho | exact Hc].
Qed.

Lemma oversize_quantity_denied_witness :
  risk_ok cfg_online_dry calm "AAPL" (-101) VNone []
  = (Ok false, [Log ERROR "Qty %s exceeds MAX_POS_SIZE %s" [VInt (-101); VInt 100]])
  /\ risk_ok cfg_offline_dry calm "AAPL" (-100) VNone []
     = (Ok true, [Log INFO "OFFLINE_MODE=true -> skipping broker risk checks" []])
  /\ risk_ok cfg_online_dry calm "AAPL" 100 VNone [] = (Ok true, [CheckRiskLimits]).
Proof.
  split; [| split].
  - apply (proj1 (oversize_quantity_denied cfg_online_dry calm "AAPL" (-101) VNone [])).
    vm_compute. reflexivity.
  - apply (proj2 (oversize_quantity_denied cfg_offline_dry calm "AAPL" (-100) VNone []));
      reflexivity.
  - apply (proj2 (proj2 (oversize_quantity_denied cfg_online_dry calm "AAPL" 100 VNone [])
                    eq_refl eq_refl) VNone); reflexivity.
Defined.

(** C4 (as stated, refuted). A sale of the protected ticker inside a
    trading window is denied, but not with "protected_symbol_no_sell". *)
Lemma protected_sell_reason_counterexample :
  fst (allow_order morning "cwh" "Sell" fresh) = (false, "protected_ticker_never_sell")
  /\ fst (allow_order morning "cwh" "Sell" fresh) <> (false, "protected_symbol_no_sell").
Proof.
  assert (fst (allow_order morning "cwh" "Sell" fresh)
          = (false, "protected_ticker_never_sell")) as Hrun
    by (vm_compute; reflexivity).
  split; [exact Hrun |]. rewrite Hrun. discriminate.
Qed.

(** C4 (amended). For a symbol whose upper-cased form is in
    [PROTECTED_NEVER_SELL], a "Sell" is always denied: with reason
    "protected_ticker_never_sell" when the clock is inside a trading
    window, and with "outside_playbook_window" otherwise, the window check
    coming first. A "Buy" on it gets exactly the decision a "Buy" on any
    other symbol gets. The protection condition holds iff the side is
    "Sell" and the upper-cased symbol is in the set, and it is the only
    source of the reason "protected_ticker_never_sell". *)
Theorem protected_sell_denied (clock : nat -> datetime) (sym : string) (st : state) :
  upper sym ∈ PROTECTED_NEVER_SELL ->
  fst (allow_order clock sym "Sell" st)
  = (false, if open_at clock (reads st)
            then "protected_ticker_never_sell" else "outside_playbook_window")
  /\ (forall sym', allow_order clock sym "Buy" st = allow_order clock sym' "Buy" st)
  /\ (forall symbol side,
         never_sell symbol side = true
         <-> side = "Sell" /\ upper symbol ∈ PROTECTED_NEVER_SELL)
  /\ (forall symbol side,
         snd (fst (allow_order clock symbol side st)) = "protected_ticker_never_sell"
         <-> open_at clock (reads st) = true
             /\ side = "Sell" /\ upper symbol ∈ PROTECTED_NEVER_SELL).
Proof.
  intros Hsym. split; [| split; [| split]].
  - rewrite allow_order_run.
    assert (never_sell sym "Sell" = true) as -> by now apply never_sell_spec.
    now destruct (open_at clock (reads st)).
  - intros sym'. now rewrite !allow_order_run.
  - apply never_sell_spec.
  - intros symbol side. rewrite <- never_sell_spec, allow_order_run. split.
    + intros Hreason.
      destruct (open_at clock (reads st)); [| discriminate]. cbn [negb] in Hreason.
      destruct (never_sell symbol side); [now split |].
      destruct (bucket_at clock (S (reads st))); [| discriminate].
      destruct (MAX_TRADES_PER_WINDOW <=? _); discriminate.
    + intros [Hopen Hns]. now rewrite Hopen, Hns.
Qed.

Lemma protected_sell_denied_witness :
  fst (allow_order midmorning "Cwh" "Sell" fresh) = (false, "outside_playbook_window")
  /\ allow_order morning "Cwh" "Buy" fresh = allow_order morning "AAPL" "Buy" fresh.
Proof.
  assert (upper "Cwh" ∈ PROTECTED_NEVER_SELL) as Hin
    by (apply (bool_decide_unpack (upper "Cwh" ∈ PROTECTED_NEVER_SELL));
        vm_compute; exact I).
  split.
  - apply (proj1 (protected_sell_denied midmorning "Cwh" fresh Hin)).
  - apply (proj1 (proj2 (protected_sell_denied morning "Cwh" fresh Hin))).
Defined.

Section DenialFacts.

Variable cfg : config.
Variable ext : collaborators.

Lemma allow_order_denial_reason clock symbol side st :
  fst (fst (allow_order clock symbol side st)) = false ->
  In (snd (fst (allow_order clock symbol side st)))
     ["outside_playbook_window"; "protected_ticker_never_sell";
      "max_trades_this_window"].
Proof.
  rewrite allow_order_run.
  destruct (negb (open_at clock (reads st))); [cbn; auto |].
  destruct (never_sell symbol side); [cbn; auto |].
  destruct (bucket_at clock (S (reads st))); [| discriminate].
  destruct (MAX_TRADES_PER_WINDOW <=? _); [cbn; auto | discriminate].
Qed.

Lemma risk_ok_breach symbol qty price t reasons :
  KILL_SWITCH cfg = false ->
  Z.abs qty <= MAX_POS_SIZE cfg ->
  OFFLINE_MODE cfg = false ->
  check_risk_limits_answer ext t = Ok (false, reasons) ->
  (forall u, enforce_limits_answer ext true u = Ok tt) ->
  risk_ok cfg ext symbol qty price t
  = (Ok false,
     t ++ [CheckRiskLimits; Log ERROR "Risk limits breached: %s" [reasons]]
       ++ (if AUTO_LIQUIDATE cfg then [EnforceLimits true] else [])).
Proof.
  intros Hk Hq Ho Hc He.
  unfold risk_ok, check_risk_limits, enforce_limits, call, Orders.bind, log, Orders.ret.
  rewrite Hk, Ho.
  destruct (Z.ltb_spec (MAX_POS_SIZE cfg) (Z.abs qty)) as [Hlt | _]; [lia |].
  rewrite Hc. cbn [negb].
  destruct (AUTO_LIQUIDATE cfg).
  - rewrite He. now rewrite <- !app_assoc.
  - now rewrite <- !app_assoc, app_nil_r.
Qed.

(** [risk_ok] has no [raise] of its own. *)
Lemma risk_ok_returns symbol qty price t :
  (forall u, exists a, check_risk_limits_answer ext u = Ok a) ->
  (forall u, enforce_limits_answer ext true u = Ok tt) ->
  exists b, fst (risk_ok cfg ext symbol qty price t) = Ok b.
Proof.
  intros Hc He.
  unfold risk_ok, check_risk_limits, enforce_limits, call, Orders.bind, log, Orders.ret.
  destruct (KILL_SWITCH cfg); [eauto |].
  destruct (MAX_POS_SIZE cfg <? Z.abs qty); [eauto |].
  destruct (OFFLINE_MODE cfg); [eauto |].
  destruct (Hc t) as [[ok reasons] ->].
  destruct ok; cbn [negb]; [eauto |].
  destruct (AUTO_LIQUIDATE cfg); [rewrite He |]; eauto.
Qed.

End DenialFacts.

(** C5 (as stated, refuted). With the kill switch on, the order entry
    point does not hand the denial back: it raises. *)
Lemma denial_raised_counterexample :
  place_equity_market cfg_kill calm "AAPL" 10 []
  = (Raised (RuntimeError "Risk check failed - order blocked"),
     [Log ERROR "Kill switch active - blocking orders" []]).
Proof. reflexivity. Qed.

(** C5 (amended). The two gate functions deliver a denial as a return
    value: [allow_order] returns [False] with one of its three reason
    strings, and [risk_ok] returns a bare [False] (kill switch, oversize
    quantity, breach reported by the risk service), raising nothing as long
    as its collaborators raise nothing. [place_equity_market] turns every
    denial of [risk_ok] into a raised
    [RuntimeError("Risk check failed - order blocked")]. *)
Theorem denial_returned_by_gates_raised_by_executor
    (cfg : config) (ext : collaborators) (symbol : string) (qty : Z) (t : list event) :
  (forall clock sym side st,
      fst (fst (allow_order clock sym side st)) = false ->
      In (snd (fst (allow_order clock sym side st)))
         ["outside_playbook_window"; "protected_ticker_never_sell";
          "max_trades_this_window"])
  /\ ((forall u, exists a, check_risk_limits_answer ext u = Ok a) ->
      (forall u, enforce_limits_answer ext true u = Ok tt) ->
      forall price, exists b, fst (risk_ok cfg ext symbol qty price t) = Ok b)
  /\ (forall reasons price,
         KILL_SWITCH cfg = false ->
         Z.abs qty <= MAX_POS_SIZE cfg ->
         OFFLINE_MODE cfg = false ->
         check_risk_limits_answer ext t = Ok (false, reasons) ->
         (forall u, enforce_limits_answer ext true u = Ok tt) ->
         fst (risk_ok cfg ext symbol qty price t) = Ok false)
  /\ (forall t',
         risk_ok cfg ext symbol qty VNone t = (Ok false, t') ->
         place_equity_market cfg ext symbol qty t
         = (Raised (RuntimeError "Risk check failed - order blocked"), t')).
Proof.
  split; [| split; [| split]].
  - intros clock sym side st. apply allow_order_denial_reason.
  - intros Hc He price. now apply risk_ok_returns.
  - intros reasons price Hk Hq Ho Hc He.
    now rewrite (risk_ok_breach cfg ext symbol qty price t reasons).
  - intros t'. apply place_after_denial.
Qed.

Lemma denial_returned_by_gates_raised_by_executor_witness :
  In (snd (fst (allow_order midmorning "AAPL" "Buy" fresh)))
     ["outside_playbook_window"; "protected_ticker_never_sell";
      "max_trades_this_window"]
  /\ (exists b, fst (risk_ok cfg_live breached "AAPL" 10 VNone []) = Ok b)
  /\ fst (risk_ok cfg_live breached "AAPL" 10 VNone []) = Ok false
  /\ place_equity_market cfg_live breached "AAPL" 10 []
     = (Raised (RuntimeError "Risk check failed - order blocked"),
        [CheckRiskLimits;
         Log ERROR "Risk limits breached: %s" [VStr "daily loss limit"]]).
Proof.
  pose proof (denial_returned_by_gates_raised_by_executor cfg_live breached "AAPL" 10 [])
    as (Hgate & Hret & Hbreach & Hraise).
  split; [| split; [| split]].
  - apply Hgate. reflexivity.
  - apply Hret.
    + intros u. eexists. reflexivity.
    + intros u. reflexivity.
  - apply (Hbreach (VStr "daily loss limit") VNone); try reflexivity.
    vm_compute. discriminate.
  - apply Hraise. reflexivity.
Defined.

Section AdmissionFacts.

Variable cfg : config.
Variable ext : collaborators.

(** An admission by [risk_ok] means the first two checks were passed. *)
Lemma risk_ok_true_inv symbol qty price t t' :
  risk_ok cfg ext symbol qty price t = (Ok true, t') ->
  KILL_SWITCH cfg = false /\ Z.abs qty <= MAX_POS_SIZE cfg.
Proof.
  unfold risk_ok, Orders.bind, log, Orders.ret.
  destruct (KILL_SWITCH cfg); [discriminate |].
  destruct (Z.ltb_spec (MAX_POS_SIZE cfg) (Z.abs qty)) as [Hlt | Hge];
    [discriminate | now split].
Qed.

Lemma place_dry_run symbol qty t t' :
  DRY_RUN cfg = true ->
  risk_ok cfg ext symbol qty VNone t = (Ok true, t') ->
  place_equity_market cfg ext symbol qty t
  = (Ok (VDict [("status", VStr "simulated"); ("payload", payload cfg symbol qty)]),
     t' ++ [Log INFO "Placing market order: %s" [payload cfg symbol qty];
            Log INFO "[DRY_RUN] Simulated order: %s" [payload cfg symbol qty]]).
Proof.
  intros Hd Hr. rewrite (place_after_admission cfg ext symbol qty t t' Hr).
  now rewrite Hd.
Qed.

Lemma place_live symbol qty t t' :
  DRY_RUN cfg = false ->
  risk_ok cfg ext symbol qty VNone t = (Ok true, t') ->
  place_equity_market cfg ext symbol qty t
  = (api_post_answer ext "/v1/accounts/orders" (payload cfg symbol qty)
       (t' ++ [Log INFO "Placing market order: %s" [payload cfg symbol qty]]),
     t' ++ [Log INFO "Placing market order: %s" [payload cfg symbol qty];
            ApiPost "/v1/accounts/orders" (payload cfg symbol qty)]).
Proof.
  intros Hd Hr. rewrite (place_after_admission cfg ext symbol qty t t' Hr).
  now rewrite Hd.
Qed.

Lemma size_by_atr_run symbol risk_per_trade stop_atr_mult t q :
  position_size_by_atr_answer ext symbol risk_per_trade stop_atr_mult t = Ok q ->
  place_equity_size_by_atr cfg ext symbol risk_per_trade stop_atr_mult t
  = place_equity_market cfg ext symbol (if 0 <? q then q else 1)
      (t ++ [PositionSizeByAtr symbol risk_per_trade stop_atr_mult;
             Log INFO "Computed qty=%s by ATR sizing for %s" [VInt q; VStr symbol]]).
Proof.
  intros Hq.
  unfold place_equity_size_by_atr, position_size_by_atr, call, log.
  unfold Orders.bind at 1. rewrite Hq. unfold Orders.bind at 1.
  now rewrite <- app_assoc.
Qed.

End AdmissionFacts.

Lemma string_length_append (a b : string) :
  String.length (a +:+ b) = (String.length a + String.length b)%nat.
Proof. induction a as [| c a IH]; simpl; [reflexivity | now f_equal]. Qed.

(** The path posted to carries no account id, whatever the id is. *)
Lemma orders_path_has_no_account (account : string) :
  "/v1/accounts/orders" <> "/v1/accounts/" +:+ account +:+ "/orders".
Proof.
  intros Heq. apply (f_equal String.length) in Heq.
  rewrite !string_length_append in Heq. cbn in Heq. lia.
Qed.

(** C7. With [OFFLINE_MODE] on, the kill switch off and |qty| within
    [MAX_POS_SIZE], [risk_ok] returns [True], logging one informational record and
    calling no collaborator: the risk service is not consulted. *)
Theorem offline_mode_skips_broker_check (cfg : config) (ext : collaborators)
    (symbol : string) (qty : Z) (price : value) (t : list event) :
  OFFLINE_MODE cfg = true ->
  KILL_SWITCH cfg = false ->
  Z.abs qty <= MAX_POS_SIZE cfg ->
  risk_ok cfg ext symbol qty price t
  = (Ok true, t ++ [Log INFO "OFFLINE_MODE=true -> skipping broker risk checks" []])
  /\ List.filter is_external (snd (risk_ok cfg ext symbol qty price t))
     = List.filter is_external t
  /\ ~ In CheckRiskLimits (snd (risk_ok cfg ext symbol qty price []))
  /\ forall ext2,
       risk_ok cfg ext2 symbol qty price t = risk_ok cfg ext symbol qty price t.
Proof.
  intros Ho Hk Hq. rewrite !(risk_ok_offline cfg ext symbol qty price _ Hk Hq Ho).
  cbn [fst snd]. split; [reflexivity |]. split; [now apply filter_external_logs |].
  split.
  - cbn. intros [Heq | []]. discriminate.
  - intros ext2. apply (risk_ok_offline cfg ext2 symbol qty price t Hk Hq Ho).
Qed.

Lemma offline_mode_skips_broker_check_witness :
  risk_ok cfg_offline_dry breached "AAPL" (-100) VNone []
  = (Ok true, [] ++ [Log INFO "OFFLINE_MODE=true -> skipping broker risk checks" []]).
Proof.
  apply (offline_mode_skips_broker_check cfg_offline_dry breached "AAPL" (-100) VNone []).
  - reflexivity.
  - reflexivity.
  - vm_compute. discriminate.
Defined.

(** C9 (as stated, refuted). A live order for account "12345" is posted to
    "/v1/accounts/orders": nothing is posted to
    "/v1/accounts/12345/orders". *)
Lemma live_order_path_counterexample :
  snd (place_equity_market cfg_live calm "AAPL" 10 [])
  = [CheckRiskLimits;
     Log INFO "Placing market order: %s" [payload cfg_live "AAPL" 10];
     ApiPost "/v1/accounts/orders" (payload cfg_live "AAPL" 10)]
  /\ ~ In (ApiPost ("/v1/accounts/" +:+ ACCOUNT_ID cfg_live +:+ "/orders")
                   (payload cfg_live "AAPL" 10))
          (snd (place_equity_market cfg_live calm "AAPL" 10 [])).
Proof.
  split; [reflexivity |].
  cbn. intros [Heq | [Heq | [Heq | []]]]; discriminate.
Qed.

(** C9 (amended). A live (non-dry-run) order that has passed the risk check
    is posted once, to the path "/v1/accounts/orders" (the account id is
    not part of the path, it travels in the body), with a body made of
    exactly accountId, orderType "Market", instrument {symbol, assetType
    "EQ"}, quantity and instruction "Buy" or "Sell"; the call hands back
    what the broker client answers. *)
Theorem live_order_posted (cfg : config) (ext : collaborators)
    (symbol : string) (qty : Z) (t t' : list event) :
  DRY_RUN cfg = false ->
  risk_ok cfg ext symbol qty VNone t = (Ok true, t') ->
  place_equity_market cfg ext symbol qty t
  = (api_post_answer ext "/v1/accounts/orders" (payload cfg symbol qty)
       (t' ++ [Log INFO "Placing market order: %s" [payload cfg symbol qty]]),
     t' ++ [Log INFO "Placing market order: %s" [payload cfg symbol qty];
            ApiPost "/v1/accounts/orders" (payload cfg symbol qty)])
  /\ payload cfg symbol qty
     = VDict [ ("accountId", VStr (ACCOUNT_ID cfg));
               ("orderType", VStr "Market");
               ("instrument", VDict [("symbol", VStr symbol); ("assetType", VStr "EQ")]);
               ("quantity", VInt (Z.abs qty));
               ("instruction", VStr (if 0 <? qty then "Buy" else "Sell")) ]
  /\ keys (payload cfg symbol qty)
     = ["accountId"; "orderType"; "instrument"; "quantity"; "instruction"]
  /\ (get "instruction" (payload cfg symbol qty) = Some (VStr "Buy")
      \/ get "instruction" (payload cfg symbol qty) = Some (VStr "Sell"))
  /\ "/v1/accounts/orders" <> "/v1/accounts/" +:+ ACCOUNT_ID cfg +:+ "/orders".
Proof.
  intros Hd Hr. split; [now apply place_live |].
  split; [reflexivity |]. split; [reflexivity |]. split.
  - cbn. destruct (0 <? qty); auto.
  - apply orders_path_has_no_account.
Qed.

Lemma live_order_posted_witness :
  place_equity_market cfg_live calm "AAPL" (-10) []
  = (Ok (VDict [("orderId", VInt 1)]),
     [CheckRiskLimits]
       ++ [Log INFO "Placing market order: %s" [payload cfg_live "AAPL" (-10)];
           ApiPost "/v1/accounts/orders" (payload cfg_live "AAPL" (-10))]).
Proof.
  apply (live_order_posted cfg_live calm "AAPL" (-10) [] [CheckRiskLimits]); reflexivity.
Defined.

(** C10. For every integer quantity q that passes the risk check, the
    payload that [place_equity_market] builds (logs, and simulates or
    posts) carries quantity |q| and an instruction drawn from the sign of q
    alone: "Buy" when q > 0, "Sell" otherwise. Nothing at this point
    rejects q = 0, which gives instruction "Sell" with quantity 0. *)
Theorem payload_quantity_and_instruction (cfg : config) (ext : collaborators)
    (symbol : string) (q : Z) (t t' : list event) :
  risk_ok cfg ext symbol q VNone t = (Ok true, t') ->
  In (Log INFO "Placing market order: %s" [payload cfg symbol q])
     (snd (place_equity_market cfg ext symbol q t))
  /\ (DRY_RUN cfg = true ->
      fst (place_equity_market cfg ext symbol q t)
      = Ok (VDict [("status", VStr "simulated"); ("payload", payload cfg symbol q)]))
  /\ (DRY_RUN cfg = false ->
      In (ApiPost "/v1/accounts/orders" (payload cfg symbol q))
         (snd (place_equity_market cfg ext symbol q t)))
  /\ get "quantity" (payload cfg symbol q) = Some (VInt (Z.abs q))
  /\ (0 < q <-> get "instruction" (payload cfg symbol q) = Some (VStr "Buy"))
  /\ (q <= 0 <-> get "instruction" (payload cfg symbol q) = Some (VStr "Sell"))
  /\ (q = 0 ->
      get "quantity" (payload cfg symbol q) = Some (VInt 0)
      /\ get "instruction" (payload cfg symbol q) = Some (VStr "Sell")).
Proof.
  intros Hr. rewrite (place_after_admission cfg ext symbol q t t' Hr).
  split; [| split; [| split; [| split; [| split; [| split]]]]].
  - destruct (DRY_RUN cfg); cbn [snd]; apply in_or_app; right; cbn; auto.
  - intros ->. reflexivity.
  - intros ->. cbn [snd]. apply in_or_app. right. cbn. auto.
  - reflexivity.
  - cbn. destruct (Z.ltb_spec 0 q); split; (lia || discriminate || reflexivity).
  - cbn. destruct (Z.ltb_spec 0 q); split; (lia || discriminate || reflexivity).
  - intros ->. split; reflexivity.
Qed.

Lemma payload_quantity_and_instruction_witness :
  In (Log INFO "Placing market order: %s" [payload cfg_offline_dry "AAPL" 0])
     (snd (place_equity_market cfg_offline_dry calm "AAPL" 0 []))
  /\ fst (place_equity_market cfg_offline_dry calm "AAPL" 0 [])
     = Ok (VDict [("status", VStr "simulated");
                  ("payload", payload cfg_offline_dry "AAPL" 0)])
  /\ get "quantity" (payload cfg_offline_dry "AAPL" 0) = Some (VInt 0)
  /\ get "instruction" (payload cfg_offline_dry "AAPL" 0) = Some (VStr "Sell").
Proof.
  pose proof (payload_quantity_and_instruction cfg_offline_dry calm "AAPL" 0 []
                [Log INFO "OFFLINE_MODE=true -> skipping broker risk checks" []] eq_refl)
    as (Hlog & Hdry & _ & _ & _ & _ & Hzero).
  split; [exact Hlog |]. split; [apply Hdry; reflexivity |].
  apply Hzero. reflexivity.
Defined.

(** * Further properties of rules_gate.py *)

Import Runs.

Section WindowFacts.

Variable clock : nat -> datetime.

(** The loop of [window_key], at any starting index and window list. *)
Lemma first_window_spec ws dt : forall idx d i,
  first_window idx ws dt = Some (d, i)
  <-> d = isoformat (dt_date dt)
      /\ exists j w, i = (idx + j)%nat /\ ws !! j = Some w
         /\ covers (dt_time dt) w = true
         /\ forall j' w', (j' < j)%nat -> ws !! j' = Some w' ->
                          covers (dt_time dt) w' = false.
Proof.
  induction ws as [| w0 ws IH]; intros idx d i; cbn [first_window].
  - split; [discriminate |]. intros (_ & j & w & _ & Hw & _). discriminate.
  - destruct (covers (dt_time dt) w0) eqn:Hc.
    + split.
      * intros [= <- <-]. split; [reflexivity |].
        exists 0%nat, w0. repeat split; [lia | assumption | lia].
      * intros (-> & j & w & -> & Hw & Hcw & Hfirst). destruct j as [| j].
        -- now rewrite Nat.add_0_r.
        -- specialize (Hfirst 0%nat w0 ltac:(lia) eq_refl). congruence.
    + rewrite IH. split.
      * intros (-> & j & w & -> & Hw & Hcw & Hfirst). split; [reflexivity |].
        exists (S j), w. repeat split; [lia | assumption | assumption |].
        intros [| j'] w' Hlt Hw'; [cbn in Hw'; congruence |].
        apply (Hfirst j' w'); [lia | assumption].
      * intros (-> & j & w & -> & Hw & Hcw & Hfirst). split; [reflexivity |].
        destruct j as [| j]; [cbn in Hw; congruence |].
        exists j, w. repeat split; [lia | assumption | assumption |].
        intros j' w' Hlt Hw'. apply (Hfirst (S j') w'); [lia | assumption].
Qed.

Lemma time_le_micros (a b : time) :
  well_formed a -> well_formed b ->
  time_le a b = true <-> micros a <= micros b.
Proof.
  intros (Hh & Hm & Hs & Hu) (Hh' & Hm' & Hs' & Hu').
  unfold time_le, time_cmp, micros.
  destruct (Z.compare_spec (hour a) (hour b));
    [destruct (Z.compare_spec (minute a) (minute b));
     [destruct (Z.compare_spec (second a) (second b));
      [destruct (Z.compare_spec (microsecond a) (microsecond b)) | |] | |] | |];
    split; intros; try discriminate; try reflexivity; try lia; exfalso; lia.
Qed.

End WindowFacts.

(** X1. [window_key] names a bucket exactly when [in_window] says the
    time of day is inside a trading window, on an explicit argument and on
    a clock reading alike; with an explicit argument neither reads the
    clock nor touches the state. *)
Theorem window_key_defined_iff_in_window (clock : nat -> datetime)
    (dt : datetime) (st st' : state) :
  (is_Some (fst (window_key clock (Some dt) st))
   <-> fst (in_window clock (Some (dt_time dt)) st') = true)
  /\ (is_Some (fst (window_key clock None st))
      <-> fst (in_window clock None st) = true)
  /\ snd (window_key clock (Some dt) st) = st
  /\ snd (in_window clock (Some (dt_time dt)) st') = st'.
Proof.
  split; [| split; [| split; reflexivity]].
  - apply (first_window_open 0).
  - apply (first_window_open 0).
Qed.

(** X2. The key [window_key] returns is the ISO date of its argument with
    the index of the first configured window containing the time of day:
    that window contains it, and no window listed before it does. *)
Theorem window_key_first_match (clock : nat -> datetime)
    (dt : datetime) (st : state) (d : string) (i : nat) :
  fst (window_key clock (Some dt) st) = Some (d, i)
  <-> d = isoformat (dt_date dt)
      /\ exists w, TRADE_WINDOWS !! i = Some w
         /\ covers (dt_time dt) w = true
         /\ forall j w', (j < i)%nat -> TRADE_WINDOWS !! j = Some w' ->
                         covers (dt_time dt) w' = false.
Proof.
  change (fst (window_key clock (Some dt) st))
    with (first_window 0 TRADE_WINDOWS dt).
  rewrite first_window_spec. split.
  - intros (-> & j & w & -> & Hw & Hc & Hfirst). split; [reflexivity |].
    exists w. auto.
  - intros (-> & w & Hw & Hc & Hfirst). split; [reflexivity |].
    exists i, w. auto.
Qed.

Lemma window_key_first_match_witness :
  exists w, TRADE_WINDOWS !! 0%nat = Some w
    /\ covers (dt_time (morning 0%nat)) w = true.
Proof.
  destruct (proj1 (window_key_first_match morning (morning 0%nat) fresh
                     "2025-01-02" 0%nat) eq_refl) as (_ & w & Hw & Hc & _).
  exists w. split; assumption.
Defined.

(** X3. Both ends of a trading window are inclusive: a well-formed time of
    day is inside a window exactly when it lies, in microseconds since
    midnight, between 06:30:00 and 07:30:00 or between 12:00:00 and
    13:00:00, bounds included. *)
Theorem in_window_bounds (clock : nat -> datetime) (t : time) (st : state) :
  well_formed t ->
  fst (in_window clock (Some t) st) = true
  <-> (23400000000 <= micros t <= 27000000000)
      \/ (43200000000 <= micros t <= 46800000000).
Proof.
  intros Ht.
  assert (forall h m, 0 <= h < 24 -> 0 <= m < 60 -> well_formed (mk_time h m 0 0))
    as Hwf by (intros h m Hh Hm; repeat split; cbn; lia).
  change (fst (in_window clock (Some t) st))
    with (existsb (covers t) TRADE_WINDOWS).
  unfold TRADE_WINDOWS. cbn [existsb]. unfold covers. cbn [fst snd].
  rewrite orb_false_r, orb_true_iff, !andb_true_iff.
  rewrite !time_le_micros by (try exact Ht; apply Hwf; lia).
  assert (micros (mk_time 6 30 0 0) = 23400000000) as -> by reflexivity.
  assert (micros (mk_time 7 30 0 0) = 27000000000) as -> by reflexivity.
  assert (micros (mk_time 12 0 0 0) = 43200000000) as -> by reflexivity.
  assert (micros (mk_time 13 0 0 0) = 46800000000) as -> by reflexivity.
  reflexivity.
Qed.

Lemma in_window_bounds_witness :
  fst (in_window morning (Some (mk_time 7 30 0 0)) fresh) = true
  /\ fst (in_window morning (Some (mk_time 7 30 0 1)) fresh) <> true.
Proof.
  split.
  - apply (in_window_bounds morning (mk_time 7 30 0 0) fresh).
    + repeat split; cbn; lia.
    + left. unfold micros. cbn. lia.
  - intros Hin.
    apply (in_window_bounds morning (mk_time 7 30 0 1) fresh) in Hin.
    + unfold micros in Hin. cbn in Hin. lia.
    + repeat split; cbn; lia.
Defined.

Section CounterFacts.

Variable clock : nat -> datetime.

Lemma allow_order_counters symbol side st :
  _window_trades (snd (allow_order clock symbol side st)) = _window_trades st.
Proof.
  rewrite allow_order_run.
  destruct (negb (open_at clock (reads st))); [reflexivity |].
  destruct (never_sell symbol side); [reflexivity |].
  now destruct (bucket_at clock (S (reads st))).
Qed.

Lemma count_of_other n m k k' v :
  k <> k' ->
  count_of {| reads := n; _window_trades := <[ k := v ]> m |} k'
  = count_of {| reads := n; _window_trades := m |} k'.
Proof. intros Hne. unfold count_of. cbn. now rewrite lookup_insert_ne. Qed.

Lemma count_of_tick st k : count_of (tick st) k = count_of st k.
Proof. reflexivity. Qed.

(** The sequence of the caller when the intent is a sale of a protected
    ticker, or any other intent. *)
Lemma gate_and_record_protected k symbol side st :
  (forall n, bucket_at clock n = Some k) ->
  never_sell symbol side = true ->
  gate_and_record clock symbol side st
  = ((false, "protected_ticker_never_sell"), tick st).
Proof.
  intros Hsame Hns. unfold gate_and_record, RulesGate.bind.
  rewrite allow_order_run, Hns.
  now rewrite (bucket_open clock _ _ (Hsame (reads st))).
Qed.

Lemma record_orders_count k n st :
  (forall m, bucket_at clock m = Some k) ->
  count_of (record_orders clock n st) k = count_of st k + Z.of_nat n
  /\ reads (record_orders clock n st) = (reads st + n)%nat.
Proof.
  intros Hsame. induction n as [| n [IHc IHr]].
  - cbn. split; lia.
  - change (record_orders clock (S n) st)
      with (snd (record_order clock (record_orders clock n st))).
    rewrite record_order_run, Hsame. cbn [snd].
    rewrite count_of_recorded. cbn [reads]. split; lia.
Qed.

End CounterFacts.

(** X4. [allow_order] only looks: it leaves the trade counters as they
    are and reads the clock once or twice. With a clock that stands
    still, asking again without recording gives the same decision, however
    often it is asked. *)
Theorem allow_order_keeps_counters (clock : nat -> datetime)
    (symbol side : string) (st : state) :
  _window_trades (snd (allow_order clock symbol side st)) = _window_trades st
  /\ (reads (snd (allow_order clock symbol side st)) = S (reads st)
      \/ reads (snd (allow_order clock symbol side st)) = S (S (reads st)))
  /\ ((forall n m, clock n = clock m) ->
      fst (allow_order clock symbol side (snd (allow_order clock symbol side st)))
      = fst (allow_order clock symbol side st)).
Proof.
  split; [apply allow_order_counters |]. split.
  - rewrite allow_order_run.
    destruct (negb (open_at clock (reads st))); [now left |].
    destruct (never_sell symbol side); [now left |].
    destruct (bucket_at clock (S (reads st))); now right.
  - intros Hstill.
    pose proof (allow_order_counters clock symbol side st) as Hc.
    set (st' := snd (allow_order clock symbol side st)) in *.
    rewrite !allow_order_run. unfold open_at, bucket_at, count_of.
    rewrite Hc, (Hstill (reads st') (reads st)), (Hstill (S (reads st')) (S (reads st))).
    destruct (negb _); [reflexivity |].
    destruct (never_sell symbol side); [reflexivity |].
    now destruct (first_window 0 TRADE_WINDOWS (clock (S (reads st)))).
Qed.

Lemma allow_order_keeps_counters_witness :
  fst (allow_order morning "AAPL" "Buy" (snd (allow_order morning "AAPL" "Buy" fresh)))
  = fst (allow_order morning "AAPL" "Buy" fresh).
Proof.
  apply (proj2 (proj2 (allow_order_keeps_counters morning "AAPL" "Buy" fresh))).
  intros n m. reflexivity.
Defined.

(** X5. [record_order] adds one to the counter of the bucket the clock
    reads and leaves every other bucket alone; outside every trading
    window it changes no counter. It asks for no permission: the counter
    is raised even when it already is at or above the cap. *)
Theorem record_order_counts (clock : nat -> datetime) (st : state) :
  match bucket_at clock (reads st) with
  | Some k =>
      count_of (snd (record_order clock st)) k = count_of st k + 1
      /\ forall k', k' <> k ->
           _window_trades (snd (record_order clock st)) !! k'
           = _window_trades st !! k'
  | None => _window_trades (snd (record_order clock st)) = _window_trades st
  end
  /\ reads (snd (record_order clock st)) = S (reads st).
Proof.
  rewrite record_order_run. cbn [snd].
  destruct (bucket_at clock (reads st)) as [k |]; [| split; reflexivity].
  split; [| reflexivity]. split.
  - apply count_of_recorded.
  - intros k' Hne. cbn. now rewrite lookup_insert_ne.
Qed.

Lemma record_order_counts_witness :
  count_of (snd (record_order morning crowded)) ("2025-01-02", 0%nat) = 6
  /\ _window_trades (snd (record_order morning crowded)) !! ("2025-01-02", 1%nat)
     = _window_trades crowded !! ("2025-01-02", 1%nat).
Proof.
  pose proof (record_order_counts morning crowded) as [[Hk Hother] _].
  split; [exact Hk |]. apply Hother. discriminate.
Defined.

(** X6. Within one bucket, n calls of [record_order] raise the counter by
    exactly n, without bound; afterwards [allow_order] lets an intent that
    is not a protected sale through exactly when the old count plus n is
    still below the cap of 2. *)
Theorem record_orders_then_allow (clock : nat -> datetime) (k : string * nat)
    (n : nat) (symbol side : string) (st : state) :
  (forall m, bucket_at clock m = Some k) ->
  never_sell symbol side = false ->
  count_of (record_orders clock n st) k = count_of st k + Z.of_nat n
  /\ fst (allow_order clock symbol side (record_orders clock n st))
     = if count_of st k + Z.of_nat n <? MAX_TRADES_PER_WINDOW
       then (true, "") else (false, "max_trades_this_window").
Proof.
  intros Hsame Hns.
  destruct (record_orders_count clock k n st Hsame) as [Hc _].
  split; [exact Hc |].
  rewrite allow_order_run, Hns, Hsame, Hc.
  rewrite (bucket_open clock _ _ (Hsame (reads (record_orders clock n st)))).
  cbn [negb fst].
  destruct (Z.leb_spec MAX_TRADES_PER_WINDOW (count_of st k + Z.of_nat n));
    destruct (Z.ltb_spec (count_of st k + Z.of_nat n) MAX_TRADES_PER_WINDOW);
    (reflexivity || lia).
Qed.

Lemma record_orders_then_allow_witness :
  count_of (record_orders morning 7 fresh) ("2025-01-02", 0%nat) = 0 + Z.of_nat 7
  /\ fst (allow_order morning "AAPL" "Buy" (record_orders morning 7 fresh))
     = (false, "max_trades_this_window").
Proof.
  apply (record_orders_then_allow morning ("2025-01-02", 0%nat) 7 "AAPL" "Buy" fresh).
  - intros m. reflexivity.
  - vm_compute. reflexivity.
Defined.

(** X7. [allow_order] reads the clock twice. When the first reading is
    inside a window and the second one no longer is, there is no bucket to
    look up and the order is let through without the cap being checked,
    whatever the counters hold. *)
Theorem allow_order_window_closing (clock : nat -> datetime)
    (symbol side : string) (st : state) :
  open_at clock (reads st) = true ->
  never_sell symbol side = false ->
  bucket_at clock (S (reads st)) = None ->
  allow_order clock symbol side st = ((true, ""), tick (tick st)).
Proof.
  intros Hopen Hns Hnone. now rewrite allow_order_run, Hopen, Hns, Hnone.
Qed.

Lemma allow_order_window_closing_witness :
  allow_order closing "AAPL" "Buy" crowded = ((true, ""), tick (tick crowded))
  /\ count_of crowded ("2025-01-02", 0%nat) = 5.
Proof.
  split; [| reflexivity].
  apply (allow_order_window_closing closing "AAPL" "Buy" crowded); reflexivity.
Defined.

(** X8. The decision of [allow_order], read off its two clock readings:
    it lets the order through exactly when the first reading is inside a
    window, the intent is no protected sale, and the bucket of the second
    reading, if there is one, counts fewer than 2 trades. The three
    reasons are tried in a fixed order: outside the window first, then the
    protected sale, then the cap. *)
Theorem allow_order_decision (clock : nat -> datetime)
    (symbol side : string) (st : state) :
  let d := fst (allow_order clock symbol side st) in
  let below_cap :=
    match bucket_at clock (S (reads st)) with
    | Some k => count_of st k < MAX_TRADES_PER_WINDOW
    | None => True
    end in
  (d = (true, "")
   <-> open_at clock (reads st) = true /\ never_sell symbol side = false
       /\ below_cap)
  /\ (d = (false, "outside_playbook_window") <-> open_at clock (reads st) = false)
  /\ (d = (false, "protected_ticker_never_sell")
      <-> open_at clock (reads st) = true /\ never_sell symbol side = true)
  /\ (d = (false, "max_trades_this_window")
      <-> open_at clock (reads st) = true /\ never_sell symbol side = false
          /\ ~ below_cap)
  /\ (fst d = true <-> d = (true, "")).
Proof.
  cbv zeta. rewrite allow_order_run.
  destruct (open_at clock (reads st)); cbn [negb fst];
    [destruct (never_sell symbol side); cbn [fst];
     [| destruct (bucket_at clock (S (reads st))) as [k |]; cbn [fst];
        [destruct (Z.leb_spec MAX_TRADES_PER_WINDOW (count_of st k)); cbn [fst] |]] |];
    repeat match goal with
           | |- _ /\ _ => split
           | |- _ <-> _ => split
           | |- _ -> _ => intro
           | H : _ /\ _ |- _ => destruct H
           end;
    try discriminate; try reflexivity; try tauto; try lia.
Qed.

Lemma run_intents_cons clock symbol side rest st :
  run_intents clock ((symbol, side) :: rest) st
  = (fst (gate_and_record clock symbol side st)
       :: fst (run_intents clock rest (snd (gate_and_record clock symbol side st))),
     snd (run_intents clock rest (snd (gate_and_record clock symbol side st)))).
Proof.
  cbn [run_intents]. unfold RulesGate.bind, RulesGate.ret.
  destruct (gate_and_record clock symbol side st) as [d st1]. cbn [fst snd].
  now destruct (run_intents clock rest st1).
Qed.

(** X9. However many intents are run one after the other within one
    bucket, each recorded when let through: the counter grows by exactly
    the number of admissions, a counter that starts at or below the cap of
    2 never passes it, and no more admissions are given than the room the
    counter left. *)
Theorem run_intents_cap (clock : nat -> datetime) (k : string * nat)
    (intents : list (string * string)) (st : state) :
  (forall n, bucket_at clock n = Some k) ->
  count_of (snd (run_intents clock intents st)) k
  = count_of st k + allowed (fst (run_intents clock intents st))
  /\ allowed (fst (run_intents clock intents st))
     <= Z.max 0 (MAX_TRADES_PER_WINDOW - count_of st k)
  /\ (count_of st k <= MAX_TRADES_PER_WINDOW ->
      count_of (snd (run_intents clock intents st)) k <= MAX_TRADES_PER_WINDOW).
Proof.
  intros Hsame. revert st.
  assert (forall st,
             count_of (snd (run_intents clock intents st)) k
             = count_of st k + allowed (fst (run_intents clock intents st))
             /\ allowed (fst (run_intents clock intents st))
                <= Z.max 0 (MAX_TRADES_PER_WINDOW - count_of st k)) as Hmain.
  { induction intents as [| [symbol side] rest IH]; intros st.
    - cbn. unfold allowed. cbn. lia.
    - rewrite run_intents_cons. cbn [fst snd].
      destruct (never_sell symbol side) eqn:Hns.
      + rewrite (gate_and_record_protected clock k symbol side st Hsame Hns).
        cbn [fst snd]. destruct (IH (tick st)) as [IHc IHa].
        rewrite count_of_tick in IHc, IHa.
        unfold allowed in *. cbn [List.filter fst]. lia.
      + rewrite (gate_and_record_run clock k Hsame symbol side st Hns).
        destruct (Z.leb_spec MAX_TRADES_PER_WINDOW (count_of st k)) as [Hge | Hlt];
          cbn [fst snd].
        * destruct (IH (tick (tick st))) as [IHc IHa].
          rewrite !count_of_tick in IHc, IHa.
          unfold allowed in *. cbn [List.filter fst]. lia.
        * match goal with
          | |- context [run_intents clock rest ?s] => destruct (IH s) as [IHc IHa]
          end.
          rewrite count_of_recorded in IHc, IHa.
          unfold allowed in *. cbn [List.filter fst length]. lia. }
  intros st. destruct (Hmain st) as [Hc Ha]. split; [exact Hc |].
  split; [exact Ha |]. intros Hle. lia.
Qed.

Lemma run_intents_cap_witness :
  count_of (snd (run_intents morning
                   [("AAPL", "Buy"); ("CWH", "Sell"); ("MSFT", "Buy");
                    ("NVDA", "Sell"); ("TSLA", "Buy")] fresh))
           ("2025-01-02", 0%nat) <= MAX_TRADES_PER_WINDOW.
Proof.
  apply (run_intents_cap morning ("2025-01-02", 0%nat)
           [("AAPL", "Buy"); ("CWH", "Sell"); ("MSFT", "Buy");
            ("NVDA", "Sell"); ("TSLA", "Buy")] fresh).
  - intros n. reflexivity.
  - vm_compute. discriminate.
Defined.

(** * Further properties of orders.py *)

Section TraceFacts.

Variable cfg : config.
Variable ext : collaborators.

(** [risk_ok] only appends to the trace, and never posts. *)
Lemma risk_ok_trace symbol qty price t :
  exists new, snd (risk_ok cfg ext symbol qty price t) = t ++ new
              /\ List.filter is_post new = [].
Proof.
  unfold risk_ok, check_risk_limits, enforce_limits, call, Orders.bind, log, Orders.ret.
  destruct (KILL_SWITCH cfg); [eexists; split; [reflexivity | reflexivity] |].
  destruct (MAX_POS_SIZE cfg <? Z.abs qty); [eexists; split; reflexivity |].
  destruct (OFFLINE_MODE cfg); [eexists; split; reflexivity |].
  destruct (check_risk_limits_answer ext t) as [[ok reasons] | e];
    [| eexists; split; reflexivity].
  destruct ok; cbn [negb]; [eexists; split; reflexivity |].
  destruct (AUTO_LIQUIDATE cfg).
  - destruct (enforce_limits_answer ext true _) as [[] | e]; cbn [snd];
      rewrite <- !app_assoc; eexists; split; reflexivity.
  - cbn [snd]. rewrite <- !app_assoc. eexists; split; reflexivity.
Qed.

Lemma filter_post_app (a b : list event) :
  List.filter is_post a = [] ->
  List.filter is_post (a ++ b) = List.filter is_post b.
Proof. intros Ha. now rewrite List.filter_app, Ha. Qed.

Lemma place_after_raise symbol qty t t' e :
  risk_ok cfg ext symbol qty VNone t = (Raised e, t') ->
  place_equity_market cfg ext symbol qty t = (Raised e, t').
Proof. intros Hr. unfold place_equity_market, Orders.bind. now rewrite Hr. Qed.

End TraceFacts.

Lemma place_equity_market_trace (cfg : config) (ext : collaborators)
    (symbol : string) (qty : Z) (t : list event) :
  exists new,
    snd (place_equity_market cfg ext symbol qty t) = t ++ new
    /\ List.filter is_post new
       = if DRY_RUN cfg then []
         else match fst (risk_ok cfg ext symbol qty VNone t) with
              | Ok true => [ApiPost "/v1/accounts/orders" (payload cfg symbol qty)]
              | _ => []
              end.
Proof.
  destruct (risk_ok_trace cfg ext symbol qty VNone t) as (new & Hnew & Hquiet).
  destruct (risk_ok cfg ext symbol qty VNone t) as [[[|] | e] t'] eqn:Hr;
    cbn [fst snd] in *; subst t'.
  - rewrite (place_after_admission cfg ext symbol qty t _ Hr).
    destruct (DRY_RUN cfg); cbn [snd]; rewrite <- app_assoc;
      eexists; (split; [reflexivity |]); now rewrite filter_post_app.
  - rewrite (place_after_denial cfg ext symbol qty t _ Hr).
    exists new. split; [reflexivity |]. now destruct (DRY_RUN cfg).
  - rewrite (place_after_raise cfg ext symbol qty t _ e Hr).
    exists new. split; [reflexivity |]. now destruct (DRY_RUN cfg).
Qed.

(** X10. [place_equity_market] only appends to the trace, and what it
    posts to the broker is decided by the risk check and [DRY_RUN] alone:
    exactly one order, with the payload built from its arguments, when
    [risk_ok] returned [True] and [DRY_RUN] is off; nothing at all when the
    risk check denied or raised, or when [DRY_RUN] is on. *)
Theorem place_equity_market_posts (cfg : config) (ext : collaborators)
    (symbol : string) (qty : Z) (t : list event) :
  exists new,
    snd (place_equity_market cfg ext symbol qty t) = t ++ new
    /\ List.filter is_post new
       = if DRY_RUN cfg then []
         else match fst (risk_ok cfg ext symbol qty VNone t) with
              | Ok true => [ApiPost "/v1/accounts/orders" (payload cfg symbol qty)]
              | _ => []
              end.
Proof. apply place_equity_market_trace. Qed.

(** X11. When the risk service cannot be reached (its call raises) while
    the kill switch is off, the quantity is within the limit and offline
    mode is off, [risk_ok] raises the same exception, and so does
    [place_equity_market]: the failure is not taken for an admission, and
    nothing is logged as placed or posted. *)
Theorem risk_service_failure_blocks (cfg : config) (ext : collaborators)
    (symbol : string) (qty : Z) (t : list event) (e : exn) :
  KILL_SWITCH cfg = false ->
  Z.abs qty <= MAX_POS_SIZE cfg ->
  OFFLINE_MODE cfg = false ->
  check_risk_limits_answer ext t = Raised e ->
  risk_ok cfg ext symbol qty VNone t = (Raised e, t ++ [CheckRiskLimits])
  /\ place_equity_market cfg ext symbol qty t = (Raised e, t ++ [CheckRiskLimits]).
Proof.
  intros Hk Hq Ho Hc.
  assert (risk_ok cfg ext symbol qty VNone t = (Raised e, t ++ [CheckRiskLimits])) as Hr.
  { unfold risk_ok, check_risk_limits, call, Orders.bind, log, Orders.ret.
    rewrite Hk, Ho.
    destruct (Z.ltb_spec (MAX_POS_SIZE cfg) (Z.abs qty)); [lia |].
    now rewrite Hc. }
  split; [exact Hr |]. now apply place_after_raise.
Qed.

Lemma risk_service_failure_blocks_witness :
  place_equity_market cfg_live failing "AAPL" 10 []
  = (Raised (CollaboratorError "timeout"), [] ++ [CheckRiskLimits]).
Proof.
  apply (risk_service_failure_blocks cfg_live failing "AAPL" 10 []
           (CollaboratorError "timeout")); try reflexivity.
  vm_compute. discriminate.
Defined.

(** X12. On a breach reported by the risk service, [risk_ok] logs it and
    calls [enforce_limits(auto_liquidate=True)] once when [AUTO_LIQUIDATE]
    is on, and not at all when it is off. The denial is returned as
    [False] when the liquidation returns; when the liquidation raises, its
    exception replaces the denial. *)
Theorem breach_liquidation (cfg : config) (ext : collaborators)
    (symbol : string) (qty : Z) (price reasons : value) (t : list event) :
  KILL_SWITCH cfg = false ->
  Z.abs qty <= MAX_POS_SIZE cfg ->
  OFFLINE_MODE cfg = false ->
  check_risk_limits_answer ext t = Ok (false, reasons) ->
  let logged := t ++ [CheckRiskLimits; Log ERROR "Risk limits breached: %s" [reasons]] in
  risk_ok cfg ext symbol qty price t
  = if AUTO_LIQUIDATE cfg
    then (match enforce_limits_answer ext true logged with
          | Ok _ => Ok false
          | Raised e => Raised e
          end, logged ++ [EnforceLimits true])
    else (Ok false, logged).
Proof.
  intros Hk Hq Ho Hc logged. subst logged.
  unfold risk_ok, check_risk_limits, enforce_limits, call, Orders.bind, log, Orders.ret.
  rewrite Hk, Ho.
  destruct (Z.ltb_spec (MAX_POS_SIZE cfg) (Z.abs qty)); [lia |].
  rewrite Hc. cbn [negb].
  destruct (AUTO_LIQUIDATE cfg).
  - rewrite <- (app_assoc t [CheckRiskLimits] [_]). cbn [app].
    now destruct (enforce_limits_answer ext true _) as [[] | e].
  - now rewrite <- app_assoc.
Qed.

Lemma breach_liquidation_witness :
  risk_ok cfg_live_liquidate breached_failing "AAPL" 10 VNone []
  = (Raised (CollaboratorError "liquidation failed"),
     [CheckRiskLimits;
      Log ERROR "Risk limits breached: %s" [VStr "daily loss limit"];
      EnforceLimits true])
  /\ risk_ok cfg_live breached_failing "AAPL" 10 VNone []
     = (Ok false,
        [CheckRiskLimits;
         Log ERROR "Risk limits breached: %s" [VStr "daily loss limit"]]).
Proof.
  split.
  - apply (breach_liquidation cfg_live_liquidate breached_failing "AAPL" 10 VNone
             (VStr "daily loss limit") []); try reflexivity.
    vm_compute. discriminate.
  - apply (breach_liquidation cfg_live breached_failing "AAPL" 10 VNone
             (VStr "daily loss limit") []); try reflexivity.
    vm_compute. discriminate.
Defined.

Lemma posted_in_filter (ev : event) (new : list event) :
  In ev new -> is_post ev = true -> In ev (List.filter is_post new).
Proof. intros Hin Hp. apply List.filter_In. now split. Qed.

(** X13. On integer sized quantities the ATR entry point can only buy:
    whatever integer the sizer answers and whatever the risk check
    decides, every order it posts to the broker carries the instruction
    "Buy" and a quantity of at least 1. *)
Theorem atr_orders_only_buy (cfg : config) (ext : collaborators)
    (symbol : string) (risk_per_trade stop_atr_mult : value) (t : list event)
    (path : string) (body : value) :
  In (ApiPost path body)
     (snd (place_equity_size_by_atr cfg ext symbol risk_per_trade stop_atr_mult t)) ->
  In (ApiPost path body) t
  \/ (get "instruction" body = Some (VStr "Buy")
      /\ exists n, get "quantity" body = Some (VInt n) /\ 1 <= n).
Proof.
  intros Hin.
  destruct (position_size_by_atr_answer ext symbol risk_per_trade stop_atr_mult t)
    as [q | e] eqn:Hq.
  - rewrite (size_by_atr_run cfg ext symbol risk_per_trade stop_atr_mult t q Hq) in Hin.
    set (q' := if 0 <? q then q else 1) in *.
    assert (1 <= q') as Hq' by (subst q'; destruct (Z.ltb_spec 0 q); lia).
    destruct (place_equity_market_trace cfg ext symbol q'
                (t ++ [PositionSizeByAtr symbol risk_per_trade stop_atr_mult;
                       Log INFO "Computed qty=%s by ATR sizing for %s"
                           [VInt q; VStr symbol]]))
      as (new & Hnew & Hposts).
    rewrite Hnew in Hin. apply in_app_or in Hin as [Hin | Hin].
    + apply in_app_or in Hin as [Hin | [Heq | [Heq | []]]];
        [now left | discriminate | discriminate].
    + right. apply posted_in_filter in Hin; [| reflexivity].
      rewrite Hposts in Hin. destruct (DRY_RUN cfg); [destruct Hin |].
      destruct (fst (risk_ok _ _ _ _ _ _)) as [[|] | e];
        [| destruct Hin | destruct Hin].
      destruct Hin as [Heq | []]. injection Heq as <- <-.
      cbn. destruct (Z.ltb_spec 0 q'); [| lia].
      split; [reflexivity |]. exists (Z.abs q'). split; [reflexivity | lia].
  - unfold place_equity_size_by_atr, position_size_by_atr, call, Orders.bind in Hin.
    rewrite Hq in Hin. cbn [snd] in Hin.
    apply in_app_or in Hin as [Hin | [Heq | []]]; [now left | discriminate].
Qed.

Lemma atr_orders_only_buy_witness :
  get "instruction" (payload cfg_live "AAPL" 1) = Some (VStr "Buy")
  /\ exists n, get "quantity" (payload cfg_live "AAPL" 1) = Some (VInt n) /\ 1 <= n.
Proof.
  destruct (atr_orders_only_buy cfg_live calm "AAPL" VNone VNone []
              "/v1/accounts/orders" (payload cfg_live "AAPL" 1)) as [[] | Hbuy].
  - vm_compute. do 4 right. left. reflexivity.
  - exact Hbuy.
Defined.

(** X14. The sizer is not capped: with the kill switch off, a sized
    quantity above [MAX_POS_SIZE] (or the fallback of 1, when the limit is
    below 1) is stopped by the risk check of [place_equity_market], so the
    ATR entry point raises [RuntimeError] and posts nothing. *)
Theorem atr_oversize_blocked (cfg : config) (ext : collaborators)
    (symbol : string) (risk_per_trade stop_atr_mult : value) (t : list event)
    (q : Z) :
  position_size_by_atr_answer ext symbol risk_per_trade stop_atr_mult t = Ok q ->
  KILL_SWITCH cfg = false ->
  MAX_POS_SIZE cfg < Z.max 1 q ->
  place_equity_size_by_atr cfg ext symbol risk_per_trade stop_atr_mult t
  = (Raised (RuntimeError "Risk check failed - order blocked"),
     t ++ [PositionSizeByAtr symbol risk_per_trade stop_atr_mult;
           Log INFO "Computed qty=%s by ATR sizing for %s" [VInt q; VStr symbol];
           Log ERROR "Qty %s exceeds MAX_POS_SIZE %s"
               [VInt (Z.max 1 q); VInt (MAX_POS_SIZE cfg)]]).
Proof.
  intros Hq Hk Hmax.
  rewrite (size_by_atr_run cfg ext symbol risk_per_trade stop_atr_mult t q Hq).
  assert ((if 0 <? q then q else 1) = Z.max 1 q) as ->
    by (destruct (Z.ltb_spec 0 q); lia).
  erewrite place_after_denial.
  2: { apply risk_ok_oversize; [exact Hk | lia]. }
  now rewrite <- app_assoc.
Qed.

Lemma atr_oversize_blocked_witness :
  place_equity_size_by_atr cfg_live breached "AAPL" VNone VNone []
  = (Raised (RuntimeError "Risk check failed - order blocked"),
     [] ++ [PositionSizeByAtr "AAPL" VNone VNone;
            Log INFO "Computed qty=%s by ATR sizing for %s" [VInt 333; VStr "AAPL"];
            Log ERROR "Qty %s exceeds MAX_POS_SIZE %s" [VInt 333; VInt 100]]).
Proof.
  apply (atr_oversize_blocked cfg_live breached "AAPL" VNone VNone [] 333);
    reflexivity.
Defined.

(** X15. Nothing of the order is lost in the payload: two calls build the
    same payload exactly when they were given the same symbol and the same
    signed quantity, the sign being carried by the instruction. *)
Theorem payload_injective (cfg : config) (s1 s2 : string) (q1 q2 : Z) :
  payload cfg s1 q1 = payload cfg s2 q2 <-> s1 = s2 /\ q1 = q2.
Proof.
  split; [| now intros [-> ->]].
  unfold payload. intros Heq. injection Heq as Hs Hq Hi. split; [exact Hs |].
  destruct (Z.ltb_spec 0 q1); destruct (Z.ltb_spec 0 q2);
    try discriminate; lia.
Qed.

(** * Properties of options.py *)

(** X16. [build_vertical_payload] succeeds exactly when both legs have
    the keys "strike", "expiration" and "right"; otherwise it raises
    [KeyError] for the first key missing from the first leg or, when that
    one is complete, from the second. When it succeeds, the quantity is
    passed on with its sign, the order type follows [debit], and the two
    legs are a "BuyToOpen" and a "SellToOpen" of quantity 1 holding only
    the three fields taken from the given legs. *)
Theorem build_vertical_payload_result (account symbol : string)
    (leg1 leg2 : list (string * Options.json)) (quantity : Z) (debit : bool) :
  match Options.build_vertical_payload account symbol leg1 leg2 quantity debit with
  | Options.KeyError key =>
      Options.first_missing leg1 = Some key
      \/ (Options.first_missing leg1 = None /\ Options.first_missing leg2 = Some key)
  | Options.Built p =>
      Options.first_missing leg1 = None /\ Options.first_missing leg2 = None
      /\ Options.field_names p
         = ["accountId"; "orderType"; "symbol"; "quantity"; "legs"]
      /\ Options.field "quantity" p = Some (Options.JInt quantity)
      /\ Options.field "orderType" p
         = Some (Options.JStr (if debit then "NetDebit" else "NetCredit"))
      /\ exists long short,
           Options.field "legs" p = Some (Options.JList [long; short])
           /\ Options.field_names long
              = ["action"; "quantity"; "strike"; "expiration"; "right"]
           /\ Options.field_names short = Options.field_names long
           /\ Options.field "action" long = Some (Options.JStr "BuyToOpen")
           /\ Options.field "action" short = Some (Options.JStr "SellToOpen")
           /\ Options.field "quantity" long = Some (Options.JInt 1)
           /\ Options.field "quantity" short = Some (Options.JInt 1)
           /\ (forall key, In key ["strike"; "expiration"; "right"] ->
                 Options.field key long = Options.lookup key leg1
                 /\ Options.field key short = Options.lookup key leg2)
  end.
Proof.
  unfold Options.build_vertical_payload, Options.item, Options.first_missing.
  cbn [List.find].
  destruct (Options.lookup "strike" leg1) as [s1 |] eqn:Hs1; [| now left].
  destruct (Options.lookup "expiration" leg1) as [e1 |] eqn:He1; [| now left].
  destruct (Options.lookup "right" leg1) as [r1 |] eqn:Hr1; [| now left].
  destruct (Options.lookup "strike" leg2) as [s2 |] eqn:Hs2; [| now right].
  destruct (Options.lookup "expiration" leg2) as [e2 |] eqn:He2; [| now right].
  destruct (Options.lookup "right" leg2) as [r2 |] eqn:Hr2; [| now right].
  repeat (split; [reflexivity |]).
  eexists _, _. repeat (split; [reflexivity |]).
  intros key [<- | [<- | [<- | []]]]; cbn; auto.
Qed.

Lemma build_vertical_payload_result_witness :
  Options.build_vertical_payload "12345" "SPY" Options.long_leg
    Options.short_leg_no_right (-2) true
  = Options.KeyError "right"
  /\ exists p, Options.build_vertical_payload "12345" "SPY" Options.long_leg
                 Options.long_leg (-2) false = Options.Built p
               /\ Options.field "quantity" p = Some (Options.JInt (-2)).
Proof.
  split; [reflexivity |].
  pose proof (build_vertical_payload_result "12345" "SPY" Options.long_leg
                Options.long_leg (-2) false) as Hb.
  destruct (Options.build_vertical_payload "12345" "SPY" Options.long_leg
              Options.long_leg (-2) false) as [p | key] eqn:Hp.
  - exists p. split; [reflexivity |]. apply Hb.
  - discriminate Hp.
Defined.

(** * Properties of strategies.py *)

Section FormatFacts.

Import Strategies.

Variable V : Type.
Variable vstr : string -> V.
Variable str_of : V -> string.

Lemma format_for_api_steps (result : gmap string V) :
  format_for_api V vstr str_of result
  = format_step V vstr str_of result
      (format_step V vstr str_of result
         (format_step V vstr str_of result result "size") "stop_loss_pct")
      "take_profit_pct".
Proof. reflexivity. Qed.

Lemma format_step_lookup (result out : gmap string V) (name k : string) :
  format_step V vstr str_of result out name !! k
  = match result !! name with
    | Some v =>
        if decide (name = k) then Some (vstr (str_of v))
        else if decide ("numeric_" +:+ name = k) then Some v
        else out !! k
    | None => out !! k
    end.
Proof.
  unfold format_step. destruct (result !! name) as [v |]; [| reflexivity].
  rewrite lookup_insert. destruct (decide (name = k)); [reflexivity |].
  now rewrite lookup_insert.
Qed.

(** Settles the comparisons of key literals. *)
Ltac keys :=
  repeat (rewrite decide_True by reflexivity
          || rewrite decide_False by discriminate).

(** The three steps on any copy [out], for a name the result holds. *)
Lemma format_steps_present (result out : gmap string V) (name : string) (v : V) :
  In name numeric_fields -> result !! name = Some v ->
  format_step V vstr str_of result
    (format_step V vstr str_of result
       (format_step V vstr str_of result out "size") "stop_loss_pct")
    "take_profit_pct" !! name = Some (vstr (str_of v))
  /\ format_step V vstr str_of result
       (format_step V vstr str_of result
          (format_step V vstr str_of result out "size") "stop_loss_pct")
       "take_profit_pct" !! ("numeric_" +:+ name) = Some v.
Proof.
  intros Hin Hv. rewrite !format_step_lookup.
  destruct Hin as [<- | [<- | [<- | []]]]; rewrite Hv;
    repeat match goal with
           | |- context [result !! ?key] => destruct (result !! key)
           end;
    keys; now split.
Qed.

(** The same for a name the result does not hold, and for a key that is
    none of the six. *)
Lemma format_steps_absent (result out : gmap string V) (name : string) :
  In name numeric_fields -> result !! name = None ->
  format_step V vstr str_of result
    (format_step V vstr str_of result
       (format_step V vstr str_of result out "size") "stop_loss_pct")
    "take_profit_pct" !! name = out !! name
  /\ format_step V vstr str_of result
       (format_step V vstr str_of result
          (format_step V vstr str_of result out "size") "stop_loss_pct")
       "take_profit_pct" !! ("numeric_" +:+ name) = out !! ("numeric_" +:+ name).
Proof.
  intros Hin Hv. rewrite !format_step_lookup.
  destruct Hin as [<- | [<- | [<- | []]]]; rewrite Hv;
    repeat match goal with
           | |- context [match result !! ?key with _ => _ end] =>
               destruct (result !! key)
           end;
    keys; now split.
Qed.

Lemma format_steps_other (result out : gmap string V) (k : string) :
  ~ In k numeric_fields ->
  ~ In k (map (String.append "numeric_") numeric_fields) ->
  format_step V vstr str_of result
    (format_step V vstr str_of result
       (format_step V vstr str_of result out "size") "stop_loss_pct")
    "take_profit_pct" !! k = out !! k.
Proof.
  intros Hn Hnn. rewrite !format_step_lookup. cbn in Hn, Hnn.
  destruct (result !! "size"), (result !! "stop_loss_pct"),
    (result !! "take_profit_pct");
    repeat case_decide; subst; try reflexivity; exfalso; tauto.
Qed.

End FormatFacts.

(** X17. [format_for_api] turns each of "size", "stop_loss_pct" and
    "take_profit_pct" that the result holds into its string form and
    keeps the original value under "numeric_" + name; a name the result
    does not hold stays absent; every other key keeps its value. *)
Theorem format_for_api_fields (V : Type) (vstr : string -> V) (str_of : V -> string)
    (result : gmap string V) :
  let out := Strategies.format_for_api V vstr str_of result in
  (forall name v,
      In name Strategies.numeric_fields -> result !! name = Some v ->
      out !! name = Some (vstr (str_of v))
      /\ out !! ("numeric_" +:+ name) = Some v)
  /\ (forall name,
         In name Strategies.numeric_fields -> result !! name = None ->
         out !! name = None
         /\ out !! ("numeric_" +:+ name) = result !! ("numeric_" +:+ name))
  /\ (forall k,
         ~ In k Strategies.numeric_fields ->
         ~ In k (map (String.append "numeric_") Strategies.numeric_fields) ->
         out !! k = result !! k).
Proof.
  cbv zeta. rewrite format_for_api_steps. split; [| split].
  - intros name v Hin Hv. now apply format_steps_present.
  - intros name Hin Hv.
    destruct (format_steps_absent V vstr str_of result result name Hin Hv)
      as [Hs Hn].
    split; [now rewrite Hs | exact Hn].
  - intros k Hn Hnn. now apply format_steps_other.
Qed.

Lemma format_for_api_fields_witness :
  Strategies.format_for_api Py.value Py.VStr Strategies.sample_str
    Strategies.sample_result !! "size" = Some (Py.VStr "1000")
  /\ Strategies.format_for_api Py.value Py.VStr Strategies.sample_str
       Strategies.sample_result !! "numeric_size" = Some (Py.VInt 1000)
  /\ Strategies.format_for_api Py.value Py.VStr Strategies.sample_str
       Strategies.sample_result !! "signal" = Some (Py.VStr "buy").
Proof.
  pose proof (format_for_api_fields Py.value Py.VStr Strategies.sample_str
                Strategies.sample_result) as (Hpresent & _ & Hother).
  destruct (Hpresent "size" (Py.VInt 1000)) as [Hs Hn].
  - cbn. auto.
  - vm_compute. reflexivity.
  - split; [exact Hs |]. split; [exact Hn |].
    rewrite Hother.
    + vm_compute. reflexivity.
    + cbn. intros [H | [H | [H | []]]]; discriminate.
    + cbn. intros [H | [H | [H | []]]]; discriminate.
Defined.

(** X18. [format_for_api] is not meant to be applied twice: on its own
    output it reads the string it stored, so the "numeric_" copy of a
    formatted field ends up holding that string and the original value is
    gone. *)
Theorem format_for_api_twice (V : Type) (vstr : string -> V) (str_of : V -> string)
    (result : gmap string V) (name : string) (v : V) :
  In name Strategies.numeric_fields ->
  result !! name = Some v ->
  let once := Strategies.format_for_api V vstr str_of result in
  let twice := Strategies.format_for_api V vstr str_of once in
  once !! ("numeric_" +:+ name) = Some v
  /\ twice !! ("numeric_" +:+ name) = Some (vstr (str_of v))
  /\ twice !! name = Some (vstr (str_of (vstr (str_of v)))).
Proof.
  intros Hin Hv once twice.
  destruct (format_steps_present V vstr str_of result result name v Hin Hv)
    as [Hs Hn].
  rewrite <- format_for_api_steps in Hs, Hn. fold once in Hs, Hn.
  split; [exact Hn |]. subst twice. rewrite format_for_api_steps.
  destruct (format_steps_present V vstr str_of once once name
              (vstr (str_of v)) Hin Hs) as [Hs2 Hn2].
  split; assumption.
Qed.

Lemma format_for_api_twice_witness :
  Strategies.format_for_api Py.value Py.VStr Strategies.sample_str
    (Strategies.format_for_api Py.value Py.VStr Strategies.sample_str
       Strategies.sample_result) !! "numeric_size" = Some (Py.VStr "1000").
Proof.
  apply (format_for_api_twice Py.value Py.VStr Strategies.sample_str
           Strategies.sample_result "size" (Py.VInt 1000)).
  - cbn. auto.
  - vm_compute. reflexivity.
Defined.

(** * Properties of sec_filings_pipeline.py *)

Section SummaryFacts.

Import SecFilings.

Variable V : Type.
Variable truthy : V -> bool.
Variable as_str : V -> option string.
Variable fmt : V -> string.

Local Abbreviation ticker_of' := (ticker_of V truthy as_str).
Local Abbreviation why_now' := (why_now V truthy fmt).
Local Abbreviation step' := (step V truthy as_str fmt).
Local Abbreviation loop_facts' := (loop_facts V truthy as_str fmt).

Lemma ticker_in_candidate t w : ticker_in (candidate t w) = t.
Proof. reflexivity. Qed.

Lemma loop_raised fs : foldl step' None fs = None.
Proof. induction fs as [| f fs IH]; [reflexivity | exact IH]. Qed.

Lemma loop_facts_skip f fs seen0 seen new t :
  ticker_of' f = Some t ->
  t = "" \/ t ∈ seen0 ->
  loop_facts' fs seen0 seen new ->
  loop_facts' (f :: fs) seen0 seen new.
Proof.
  intros Ht Hskip (Hseen & Hnd & Hin & Hfirst & Hlen).
  assert (forall t', In t' (map ticker_in new) -> t' <> t) as Hne.
  { intros t' Ht' ->. apply Hin in Ht' as (Hne & Hns & _). destruct Hskip; tauto. }
  split; [exact Hseen |]. split; [exact Hnd |]. split; [| split].
  - intros t'. rewrite Hin. split.
    + intros (Hne' & Hns & f' & Hf' & Ht'). repeat split; try assumption.
      exists f'. split; [now right | assumption].
    + intros (Hne' & Hns & f' & [<- | Hf'] & Ht').
      * exfalso. rewrite Ht in Ht'. injection Ht' as <-. destruct Hskip; tauto.
      * repeat split; try assumption. eauto.
  - intros e He. destruct (Hfirst e He) as (pre & f' & post & -> & Ht' & He' & Hpre).
    exists (f :: pre), f', post. split; [reflexivity |].
    split; [assumption |]. split; [assumption |].
    constructor; [| assumption]. rewrite Ht. intros [= ->].
    apply (Hne (ticker_in e)); [| reflexivity].
    now apply in_map.
  - cbn. lia.
Qed.

Lemma loop_facts_add f fs seen0 seen new t :
  ticker_of' f = Some t ->
  t <> "" -> t ∉ seen0 ->
  loop_facts' fs ({[ t ]} ∪ seen0) seen new ->
  loop_facts' (f :: fs) seen0 seen (candidate t (why_now' f) :: new).
Proof.
  intros Ht Hne Hns (Hseen & Hnd & Hin & Hfirst & Hlen).
  assert (forall t', In t' (map ticker_in new) -> t' <> t) as Hfresh.
  { intros t' Ht' ->. apply Hin in Ht' as (_ & Hns' & _).
    apply Hns', elem_of_union. left. now apply elem_of_singleton. }
  split; [| split; [| split; [| split]]].
  - intros t'. rewrite Hseen. cbn [map In]. rewrite ticker_in_candidate.
    rewrite elem_of_union, elem_of_singleton. split.
    + intros [[-> | Hs] | Hs]; auto.
    + intros [Hs | [<- | Hs]]; auto.
  - cbn [map]. rewrite ticker_in_candidate. constructor; [| assumption].
    intros Hc%list_elem_of_In. now apply (Hfresh t).
  - intros t'. cbn [map In]. rewrite ticker_in_candidate, Hin. split.
    + intros [<- | (Hne' & Hns' & f' & Hf' & Ht')].
      * repeat split; try assumption. exists f. split; [now left | assumption].
      * repeat split; try assumption;
          [intros Hs; apply Hns', elem_of_union; now right |].
        exists f'. split; [now right | assumption].
    + intros (Hne' & Hns' & f' & Hf' & Ht').
      destruct (decide (t' = t)) as [-> | Hdiff]; [now left | right].
      split; [assumption |].
      split; [rewrite elem_of_union, elem_of_singleton; tauto |].
      destruct Hf' as [<- | Hf']; [congruence | eauto].
  - intros e [<- | He].
    + exists [], f, fs. rewrite ticker_in_candidate. repeat split; auto.
    + destruct (Hfirst e He) as (pre & f' & post & -> & Ht' & He' & Hpre).
      exists (f :: pre), f', post. split; [reflexivity |].
      split; [assumption |]. split; [assumption |].
      constructor; [| assumption]. rewrite Ht. intros [= ->].
      apply (Hfresh (ticker_in e)); [| reflexivity]. now apply in_map.
  - cbn. lia.
Qed.

Lemma loop_spec fs : forall out0 seen0,
  match foldl step' (Some (out0, seen0)) fs with
  | None => Exists (fun f => ticker_of' f = None) fs
  | Some (out, seen) =>
      Forall (fun f => is_Some (ticker_of' f)) fs
      /\ exists new, out = out0 ++ new /\ loop_facts' fs seen0 seen new
  end.
Proof.
  induction fs as [| f fs IH]; intros out0 seen0.
  - cbn. split; [constructor |]. exists []. split; [now rewrite app_nil_r |].
    split; [| split; [| split; [| split]]]; cbn.
    + intros t. tauto.
    + constructor.
    + intros t. split; [intros [] | intros (_ & _ & ? & [] & _)].
    + intros ? [].
    + lia.
  - cbn [foldl]. unfold step at 2. destruct (ticker_of' f) as [t |] eqn:Ht.
    2: { rewrite loop_raised. now left. }
    destruct (decide (t = "")) as [Hempty | Hne];
      [| destruct (decide (t ∈ seen0)) as [Hseen | Hns]].
    + specialize (IH out0 seen0).
      destruct (foldl step' (Some (out0, seen0)) fs) as [[out seen] |]; [| now right].
      destruct IH as (Hall & new & -> & Hfacts). split; [constructor; eauto |].
      exists new. split; [reflexivity |].
      apply (loop_facts_skip f fs seen0 seen new t Ht); auto.
    + specialize (IH out0 seen0).
      destruct (foldl step' (Some (out0, seen0)) fs) as [[out seen] |]; [| now right].
      destruct IH as (Hall & new & -> & Hfacts). split; [constructor; eauto |].
      exists new. split; [reflexivity |].
      apply (loop_facts_skip f fs seen0 seen new t Ht); auto.
    + specialize (IH (out0 ++ [candidate t (why_now' f)]) ({[ t ]} ∪ seen0)).
      destruct (foldl step' _ fs) as [[out seen] |]; [| now right].
      destruct IH as (Hall & new & -> & Hfacts). split; [constructor; eauto |].
      exists (candidate t (why_now' f) :: new).
      split; [now rewrite <- app_assoc |].
      now apply loop_facts_add.
Qed.

End SummaryFacts.

(** X19. When [summarize_to_scanner_shape] returns, no ticker appears
    twice among its candidates; the tickers are exactly the non-empty
    upper-cased tickers of the filings; each candidate is the skeleton
    built from the first filing of its ticker, later filings of the same
    ticker being dropped; and there are at most as many candidates as
    filings. *)
Theorem summarize_candidates (V : Type) (truthy : V -> bool)
    (as_str : V -> option string) (fmt : V -> string)
    (filings : list (gmap string V)) (out : list (list (string * SecFilings.scalar))) :
  SecFilings.summarize_to_scanner_shape V truthy as_str fmt filings = Some out ->
  NoDup (map SecFilings.ticker_in out)
  /\ (forall t, In t (map SecFilings.ticker_in out)
                <-> t <> ""
                    /\ exists f, In f filings
                                 /\ SecFilings.ticker_of V truthy as_str f = Some t)
  /\ (forall e, In e out ->
        exists pre f post,
          filings = pre ++ f :: post
          /\ SecFilings.ticker_of V truthy as_str f = Some (SecFilings.ticker_in e)
          /\ e = SecFilings.candidate (SecFilings.ticker_in e)
                   (SecFilings.why_now V truthy fmt f)
          /\ Forall (fun f' => SecFilings.ticker_of V truthy as_str f'
                               <> Some (SecFilings.ticker_in e)) pre)
  /\ (length out <= length filings)%nat.
Proof.
  unfold SecFilings.summarize_to_scanner_shape. intros Hout.
  pose proof (loop_spec V truthy as_str fmt filings [] ∅) as Hspec.
  destruct (foldl _ _ filings) as [[out' seen] |]; [| discriminate].
  injection Hout as <-.
  destruct Hspec as (_ & new & -> & Hseen & Hnd & Hin & Hfirst & Hlen).
  cbn [app]. split; [exact Hnd |]. split; [| split; [exact Hfirst | exact Hlen]].
  intros t. rewrite Hin. split.
  - intros (Hne & _ & Hf). now split.
  - intros (Hne & Hf). split; [assumption |]. split; [| assumption].
    apply not_elem_of_empty.
Qed.

Lemma summarize_candidates_witness :
  NoDup (map SecFilings.ticker_in
           [SecFilings.candidate "NVDA" "Fresh 8-K filed at . "])
  /\ (length [SecFilings.candidate "NVDA" "Fresh 8-K filed at . "] <= 2)%nat.
Proof.
  destruct (summarize_candidates Py.value SecFilings.truthy_value
              SecFilings.as_str_value SecFilings.fmt_value
              [SecFilings.filing_nvda; SecFilings.filing_nvda_later]
              [SecFilings.candidate "NVDA" "Fresh 8-K filed at . "])
    as (Hnd & _ & _ & Hlen).
  - vm_compute. reflexivity.
  - split; [exact Hnd | exact Hlen].
Defined.

(** X20. [summarize_to_scanner_shape] raises ([AttributeError], from
    [.upper()]) exactly when some filing holds a truthy ticker that is not
    a string, wherever in the list it stands; a filing whose ticker is
    missing, [None] or empty is skipped without error. *)
Theorem summarize_raises (V : Type) (truthy : V -> bool)
    (as_str : V -> option string) (fmt : V -> string)
    (filings : list (gmap string V)) :
  (SecFilings.summarize_to_scanner_shape V truthy as_str fmt filings = None
   <-> exists f v, In f filings /\ f !! "ticker" = Some v
                   /\ truthy v = true /\ as_str v = None)
  /\ (forall f, f !! "ticker" = None ->
        SecFilings.summarize_to_scanner_shape V truthy as_str fmt [f] = Some [])
  /\ (forall f v, f !! "ticker" = Some v -> truthy v = false ->
        SecFilings.summarize_to_scanner_shape V truthy as_str fmt [f] = Some []).
Proof.
  assert (forall f, SecFilings.ticker_of V truthy as_str f = None
                    <-> exists v, f !! "ticker" = Some v
                                  /\ truthy v = true /\ as_str v = None) as Hbad.
  { intros f. unfold SecFilings.ticker_of, SecFilings.get_truthy.
    destruct (f !! "ticker") as [v |];
      [| split; [discriminate | intros (? & ? & _); discriminate]].
    destruct (truthy v) eqn:Htv.
    - destruct (as_str v) eqn:Hsv.
      + split; [discriminate |]. intros (v' & [= <-] & _ & Hs). congruence.
      + split; [eauto | reflexivity].
    - split; [discriminate |]. intros (v' & [= <-] & Ht & _). congruence. }
  split; [| split].
  - unfold SecFilings.summarize_to_scanner_shape.
    pose proof (loop_spec V truthy as_str fmt filings [] ∅) as Hspec.
    destruct (foldl _ _ filings) as [[out' seen] |]; cbn.
    + split; [discriminate |]. intros (f & v & Hf & Hv & Ht & Hs).
      destruct Hspec as (Hall & _). rewrite Forall_forall in Hall.
      apply list_elem_of_In in Hf.
      destruct (Hall f Hf) as [t Ht'].
      enough (SecFilings.ticker_of V truthy as_str f = None) by congruence.
      apply Hbad. eauto.
    + split; [| reflexivity]. intros _. apply Exists_exists in Hspec as (f & Hf & Ht).
      apply Hbad in Ht as (v & Hv & Ht & Hs). exists f, v.
      apply list_elem_of_In in Hf. auto.
  - intros f Hf. unfold SecFilings.summarize_to_scanner_shape. cbn.
    unfold SecFilings.ticker_of, SecFilings.get_truthy. now rewrite Hf.
  - intros f v Hf Ht. unfold SecFilings.summarize_to_scanner_shape. cbn.
    unfold SecFilings.ticker_of, SecFilings.get_truthy. now rewrite Hf, Ht.
Qed.

Lemma summarize_raises_witness :
  SecFilings.summarize_to_scanner_shape Py.value SecFilings.truthy_value
    SecFilings.as_str_value SecFilings.fmt_value
    [SecFilings.filing_nvda; SecFilings.filing_numbered] = None.
Proof.
  apply (proj1 (summarize_raises Py.value SecFilings.truthy_value
                  SecFilings.as_str_value SecFilings.fmt_value
                  [SecFilings.filing_nvda; SecFilings.filing_numbered])).
  exists SecFilings.filing_numbered, (Py.VInt 7).
  split; [cbn; auto |]. split; [vm_compute; reflexivity |]. split; reflexivity.
Defined.

(** * Properties of strategies_seasonal.py *)

Section SeasonalFacts.

Import Seasonal.

Variable clock : nat -> datetime.
Variable self : strategy.

Lemma calendar_pairs_complete m d : calendar m d -> In (m, d) calendar_pairs.
Proof.
  intros [Hm Hd]. apply list_elem_of_In. unfold calendar_pairs.
  apply list_elem_of_bind. exists m. split; [| apply elem_of_seqZ; lia].
  apply list_elem_of_bind. exists d. split; [| apply elem_of_seqZ; lia].
  now apply list_elem_of_singleton.
Qed.

Lemma order_agrees_sound pairs a b :
  order_agrees pairs = true -> In a pairs -> In b pairs ->
  String.leb (month_day (fst a) (snd a)) (month_day (fst b) (snd b))
  = (md_number (fst a) (snd a) <=? md_number (fst b) (snd b)).
Proof.
  intros Hall Ha Hb. unfold order_agrees in Hall.
  rewrite forallb_forall in Hall. specialize (Hall a Ha).
  rewrite forallb_forall in Hall. specialize (Hall b Hb).
  now apply Bool.eqb_prop in Hall.
Qed.

(** The 372 by 372 comparisons, carried out. *)
Lemma order_agrees_calendar : order_agrees calendar_pairs = true.
Proof. vm_compute. reflexivity. Qed.

Lemma month_day_order m d m' d' :
  calendar m d -> calendar m' d' ->
  String.leb (month_day m d) (month_day m' d') = true
  <-> md_number m d <= md_number m' d'.
Proof.
  intros Ha Hb.
  pose proof (order_agrees_sound calendar_pairs (m, d) (m', d') order_agrees_calendar
                (calendar_pairs_complete m d Ha) (calendar_pairs_complete m' d' Hb))
    as Heq.
  cbn [fst snd] in Heq. rewrite Heq. apply Z.leb_le.
Qed.

Lemma is_seasonal_period_on date n :
  is_seasonal_period clock self (Some date) n
  = (String.leb (memorial_day self) (strftime_md date)
     && String.leb (strftime_md date) (labor_day self), n).
Proof.
  unfold is_seasonal_period, bind, or_now, ret.
  now destruct (String.leb _ _ && String.leb _ _).
Qed.

Lemma is_seasonal_period_now n :
  is_seasonal_period clock self None n
  = (fst (is_seasonal_period clock self (Some (clock n)) n), S n).
Proof.
  rewrite is_seasonal_period_on. unfold is_seasonal_period, bind, or_now, ret.
  now destruct (String.leb _ _ && String.leb _ _).
Qed.

Lemma is_stock_active_on symbol date n :
  is_stock_active clock self symbol (Some date) n
  = (match start_dates self !! symbol with
     | None => false
     | Some start_date => String.leb start_date (strftime_md date)
     end, n).
Proof.
  unfold is_stock_active, bind, or_now, ret.
  now destruct (start_dates self !! symbol).
Qed.

Lemma is_stock_active_now symbol n :
  is_stock_active clock self symbol None n
  = (fst (is_stock_active clock self symbol (Some (clock n)) n), S n).
Proof.
  rewrite is_stock_active_on. unfold is_stock_active, bind, or_now, ret.
  now destruct (start_dates self !! symbol).
Qed.

Lemma collect_active_on symbols date : forall acc n,
  collect_active clock self symbols (Some date) acc n
  = (acc ++ List.filter
              (fun s => fst (is_stock_active clock self s (Some date) 0%nat))
              symbols, n).
Proof.
  induction symbols as [| s symbols IH]; intros acc n.
  - cbn. now rewrite app_nil_r.
  - cbn [collect_active List.filter]. unfold bind at 1.
    rewrite !is_stock_active_on. cbn [fst].
    destruct (match start_dates self !! s with
              | Some start_date => String.leb start_date (strftime_md date)
              | None => false
              end); rewrite IH; [now rewrite <- app_assoc | reflexivity].
Qed.

Lemma collect_active_cons_now s symbols acc n :
  collect_active clock self (s :: symbols) None acc n
  = collect_active clock self symbols None
      (if fst (is_stock_active clock self s (Some (clock n)) 0%nat)
       then acc ++ [s] else acc) (S n).
Proof.
  cbn [collect_active]. unfold bind.
  now rewrite is_stock_active_now, !is_stock_active_on.
Qed.

Lemma collect_active_now symbols : forall acc n,
  snd (collect_active clock self symbols None acc n) = (n + length symbols)%nat
  /\ ((forall i j, clock i = clock j) ->
      fst (collect_active clock self symbols None acc n)
      = fst (collect_active clock self symbols (Some (clock 0%nat)) acc n)).
Proof.
  induction symbols as [| s symbols IH]; intros acc n.
  - cbn. split; [lia | reflexivity].
  - rewrite collect_active_cons_now.
    match goal with
    | |- context [collect_active _ _ _ None ?a _] => destruct (IH a (S n)) as [Hreads Hsame]
    end.
    split; [rewrite Hreads; cbn [length]; lia |].
    intros Hstill. rewrite (Hsame Hstill), (Hstill n 0%nat).
    rewrite !collect_active_on. cbn [List.filter fst].
    destruct (fst (is_stock_active clock self s (Some (clock 0%nat)) 0%nat));
      [now rewrite <- app_assoc | reflexivity].
Qed.

End SeasonalFacts.

(** X21. With the season bounds given as 'MM-DD' strings,
    [is_seasonal_period] on an explicit date holds exactly when month and
    day lie between the two bounds, both included, and it does not read
    the clock. A season whose end comes before its start in the year, as
    one running over the new year would, is never on. *)
Theorem seasonal_period_bounds (clock : nat -> RulesGate.datetime)
    (self : Seasonal.strategy) (date : RulesGate.datetime) (n : nat)
    (m1 d1 m2 d2 : Z) :
  Seasonal.memorial_day self = Seasonal.month_day m1 d1 ->
  Seasonal.labor_day self = Seasonal.month_day m2 d2 ->
  Seasonal.calendar m1 d1 -> Seasonal.calendar m2 d2 ->
  Seasonal.calendar (month (dt_date date)) (day (dt_date date)) ->
  let today := Seasonal.md_number (month (dt_date date)) (day (dt_date date)) in
  (fst (Seasonal.is_seasonal_period clock self (Some date) n) = true
   <-> Seasonal.md_number m1 d1 <= today <= Seasonal.md_number m2 d2)
  /\ snd (Seasonal.is_seasonal_period clock self (Some date) n) = n
  /\ (Seasonal.md_number m2 d2 < Seasonal.md_number m1 d1 ->
      fst (Seasonal.is_seasonal_period clock self (Some date) n) = false).
Proof.
  intros Hm Hl H1 H2 Hd today.
  rewrite is_seasonal_period_on, Hm, Hl. cbn [fst snd].
  unfold Seasonal.strftime_md.
  assert (String.leb (Seasonal.month_day m1 d1)
            (Seasonal.month_day (month (dt_date date)) (day (dt_date date)))
          && String.leb
               (Seasonal.month_day (month (dt_date date)) (day (dt_date date)))
               (Seasonal.month_day m2 d2) = true
          <-> Seasonal.md_number m1 d1 <= today <= Seasonal.md_number m2 d2) as Hiff.
  { rewrite andb_true_iff, !month_day_order by assumption. reflexivity. }
  split; [exact Hiff |]. split; [reflexivity |].
  intros Hwrap. apply not_true_is_false. rewrite Hiff. lia.
Qed.

Lemma seasonal_period_bounds_witness :
  fst (Seasonal.is_seasonal_period Seasonal.always_july_fourth Seasonal.defaults
         (Some Seasonal.july_fourth) 0%nat) = true.
Proof.
  apply (proj1 (seasonal_period_bounds Seasonal.always_july_fourth Seasonal.defaults
                  Seasonal.july_fourth 0%nat 5 25 9 1
                  eq_refl eq_refl
                  ltac:(unfold Seasonal.calendar; lia)
                  ltac:(unfold Seasonal.calendar; lia)
                  ltac:(unfold Seasonal.calendar; cbn; lia))).
  vm_compute. split; discriminate.
Defined.

(** X22. [is_stock_active] on an explicit date is false for a symbol
    without a start date, and for a symbol with an 'MM-DD' start date it
    holds exactly from that day of the year on: it looks at neither end of
    the season, so it stays true until the end of the year. *)
Theorem stock_active_from_start (clock : nat -> RulesGate.datetime)
    (self : Seasonal.strategy) (symbol : string) (date : RulesGate.datetime)
    (n : nat) :
  (Seasonal.start_dates self !! symbol = None ->
   fst (Seasonal.is_stock_active clock self symbol (Some date) n) = false)
  /\ (forall m0 d0,
         Seasonal.start_dates self !! symbol = Some (Seasonal.month_day m0 d0) ->
         Seasonal.calendar m0 d0 ->
         Seasonal.calendar (month (dt_date date)) (day (dt_date date)) ->
         (fst (Seasonal.is_stock_active clock self symbol (Some date) n) = true
          <-> Seasonal.md_number m0 d0
              <= Seasonal.md_number (month (dt_date date)) (day (dt_date date)))
         /\ forall later,
              Seasonal.calendar (month (dt_date later)) (day (dt_date later)) ->
              Seasonal.md_number (month (dt_date date)) (day (dt_date date))
              <= Seasonal.md_number (month (dt_date later)) (day (dt_date later)) ->
              fst (Seasonal.is_stock_active clock self symbol (Some date) n) = true ->
              fst (Seasonal.is_stock_active clock self symbol (Some later) n) = true).
Proof.
  split.
  - intros Hnone. now rewrite is_stock_active_on, Hnone.
  - intros m0 d0 Hstart H0 Hd. rewrite is_stock_active_on, Hstart. cbn [fst].
    unfold Seasonal.strftime_md. split; [now apply month_day_order |].
    intros later Hl Hle Hact. rewrite is_stock_active_on, Hstart. cbn [fst].
    unfold Seasonal.strftime_md.
    apply month_day_order; [assumption | assumption |].
    rewrite ?is_stock_active_on, ?Hstart in Hact. cbn [fst] in Hact.
    unfold Seasonal.strftime_md in Hact.
    apply (proj1 (month_day_order m0 d0 _ _ H0 Hd)) in Hact. lia.
Qed.

Lemma stock_active_from_start_witness :
  fst (Seasonal.is_stock_active Seasonal.always_july_fourth Seasonal.defaults
         "CHTR" (Some Seasonal.new_years_eve) 0%nat) = true
  /\ fst (Seasonal.is_stock_active Seasonal.always_july_fourth Seasonal.defaults
            "SPY" (Some Seasonal.new_years_eve) 0%nat) = false.
Proof.
  pose proof (stock_active_from_start Seasonal.always_july_fourth Seasonal.defaults
                "CHTR" Seasonal.new_years_eve 0%nat) as [_ Hchtr].
  pose proof (stock_active_from_start Seasonal.always_july_fourth Seasonal.defaults
                "SPY" Seasonal.new_years_eve 0%nat) as [Hspy _].
  split.
  - destruct (Hchtr 6 20) as [Hiff _].
    + vm_compute. reflexivity.
    + unfold Seasonal.calendar. lia.
    + unfold Seasonal.calendar. cbn. lia.
    + apply Hiff. unfold Seasonal.md_number. cbn. lia.
  - apply Hspy. vm_compute. reflexivity.
Defined.

(** X23. On an explicit date [get_active_symbols] reads no clock and
    returns, in their configured order, the seasonal stocks that
    [is_stock_active] accepts when the date is in season, and nothing
    otherwise; a stock listed without a start date is never returned. *)
Theorem active_symbols_on_date (clock : nat -> RulesGate.datetime)
    (self : Seasonal.strategy) (date : RulesGate.datetime) (n : nat) :
  Seasonal.get_active_symbols clock self (Some date) n
  = (if fst (Seasonal.is_seasonal_period clock self (Some date) n)
     then List.filter
            (fun s => fst (Seasonal.is_stock_active clock self s (Some date) 0%nat))
            (Seasonal.seasonal_stocks self)
     else [], n)
  /\ (forall s,
         In s (fst (Seasonal.get_active_symbols clock self (Some date) n)) ->
         In s (Seasonal.seasonal_stocks self)
         /\ is_Some (Seasonal.start_dates self !! s)
         /\ fst (Seasonal.is_seasonal_period clock self (Some date) n) = true).
Proof.
  assert (Seasonal.get_active_symbols clock self (Some date) n
          = (if fst (Seasonal.is_seasonal_period clock self (Some date) n)
             then List.filter
                    (fun s => fst (Seasonal.is_stock_active clock self s
                                     (Some date) 0%nat))
                    (Seasonal.seasonal_stocks self)
             else [], n)) as Hrun.
  { unfold Seasonal.get_active_symbols, Seasonal.bind.
    rewrite is_seasonal_period_on. cbn [fst].
    destruct (String.leb _ _ && String.leb _ _); cbn [negb]; [| reflexivity].
    now rewrite collect_active_on. }
  split; [exact Hrun |]. intros s. rewrite Hrun. cbn [fst].
  destruct (fst (Seasonal.is_seasonal_period clock self (Some date) n));
    [| intros []].
  intros Hin. apply List.filter_In in Hin as [Hin Hact].
  split; [assumption |]. split; [| reflexivity].
  rewrite is_stock_active_on in Hact. cbn [fst] in Hact.
  destruct (Seasonal.start_dates self !! s); [eauto | discriminate].
Qed.

Lemma active_symbols_on_date_witness :
  In "CHTR" (Seasonal.seasonal_stocks Seasonal.defaults)
  /\ is_Some (Seasonal.start_dates Seasonal.defaults !! "CHTR")
  /\ fst (Seasonal.is_seasonal_period Seasonal.always_july_fourth Seasonal.defaults
            (Some Seasonal.july_fourth) 0%nat) = true.
Proof.
  apply (proj2 (active_symbols_on_date Seasonal.always_july_fourth Seasonal.defaults
                  Seasonal.july_fourth 0%nat) "CHTR").
  vm_compute. auto.
Defined.

(** X24. Without a date [get_active_symbols] reads the clock once for
    the season and, in season, once more for every seasonal stock, also
    for those without a start date; out of season it reads it once. When
    the clock stands still the answer is the one for that date. *)
Theorem active_symbols_clock_reads (clock : nat -> RulesGate.datetime)
    (self : Seasonal.strategy) (n : nat) :
  snd (Seasonal.get_active_symbols clock self None n)
  = (if fst (Seasonal.is_seasonal_period clock self (Some (clock n)) n)
     then S n + length (Seasonal.seasonal_stocks self) else S n)%nat
  /\ ((forall i j, clock i = clock j) ->
      fst (Seasonal.get_active_symbols clock self None n)
      = fst (Seasonal.get_active_symbols clock self (Some (clock 0%nat)) n)).
Proof.
  unfold Seasonal.get_active_symbols, Seasonal.bind.
  rewrite is_seasonal_period_now, !is_seasonal_period_on. cbn [fst].
  split.
  - destruct (String.leb _ _ && String.leb _ _); cbn [negb]; [| reflexivity].
    now destruct (collect_active_now clock self (Seasonal.seasonal_stocks self) [] (S n)).
  - intros Hstill. rewrite (Hstill n 0%nat).
    destruct (String.leb _ _ && String.leb _ _); cbn [negb]; [| reflexivity].
    destruct (collect_active_now clock self (Seasonal.seasonal_stocks self) [] (S n))
      as [_ Hsame].
    rewrite (Hsame Hstill). now rewrite !collect_active_on.
Qed.

Lemma active_symbols_clock_reads_witness :
  fst (Seasonal.get_active_symbols Seasonal.always_july_fourth Seasonal.defaults
         None 0%nat)
  = fst (Seasonal.get_active_symbols Seasonal.always_july_fourth Seasonal.defaults
           (Some (Seasonal.always_july_fourth 0%nat)) 0%nat).
Proof.
  apply (proj2 (active_symbols_clock_reads Seasonal.always_july_fourth
                  Seasonal.defaults 0%nat)).
  intros i j. reflexivity.
Defined.

(** * Dry run and ATR sizing, through the risk check *)

Section DispatchFacts.

Variable cfg : config.
Variable ext : collaborators.

(** In offline mode [risk_ok] calls no collaborator, whatever it
    decides. *)
Lemma risk_ok_offline_quiet symbol qty price t :
  OFFLINE_MODE cfg = true ->
  List.filter is_external (snd (risk_ok cfg ext symbol qty price t))
  = List.filter is_external t.
Proof.
  intros Ho. unfold risk_ok, Orders.bind, log, Orders.ret. rewrite Ho.
  destruct (KILL_SWITCH cfg); [now apply filter_external_logs |].
  destruct (MAX_POS_SIZE cfg <? Z.abs qty); now apply filter_external_logs.
Qed.

(** [place_equity_market], by what the risk check answered. *)
Lemma place_equity_market_run symbol qty t :
  place_equity_market cfg ext symbol qty t
  = match risk_ok cfg ext symbol qty VNone t with
    | (Ok true, t') =>
        if DRY_RUN cfg then
          (Ok (VDict [("status", VStr "simulated");
                      ("payload", payload cfg symbol qty)]),
           t' ++ [Log INFO "Placing market order: %s" [payload cfg symbol qty];
                  Log INFO "[DRY_RUN] Simulated order: %s" [payload cfg symbol qty]])
        else
          (api_post_answer ext "/v1/accounts/orders" (payload cfg symbol qty)
             (t' ++ [Log INFO "Placing market order: %s" [payload cfg symbol qty]]),
           t' ++ [Log INFO "Placing market order: %s" [payload cfg symbol qty];
                  ApiPost "/v1/accounts/orders" (payload cfg symbol qty)])
    | (Ok false, t') =>
        (Raised (RuntimeError "Risk check failed - order blocked"), t')
    | (Raised e, t') => (Raised e, t')
    end.
Proof.
  destruct (risk_ok cfg ext symbol qty VNone t) as [[[|] | e] t'] eqn:Hr.
  - now apply place_after_admission.
  - now apply place_after_denial.
  - now apply place_after_raise.
Qed.

(** The payload of a quantity of at least one. *)
Lemma payload_buy symbol q :
  1 <= q ->
  payload cfg symbol q
  = VDict [ ("accountId", VStr (ACCOUNT_ID cfg));
            ("orderType", VStr "Market");
            ("instrument", VDict [("symbol", VStr symbol); ("assetType", VStr "EQ")]);
            ("quantity", VInt q);
            ("instruction", VStr "Buy") ].
Proof.
  intros Hq. unfold payload. rewrite Z.abs_eq by lia.
  destruct (Z.ltb_spec 0 q); [reflexivity | lia].
Qed.

End DispatchFacts.

(** C6 (as stated, refuted). With [DRY_RUN] on, the risk check still comes
    first: with offline mode off the risk service is called before the
    order is simulated; on a breach with [AUTO_LIQUIDATE] on the
    liquidation is called and the order is not simulated but raised; and
    with the kill switch on the call raises as well. *)
Lemma dry_run_risk_check_counterexample :
  place_equity_market cfg_online_dry calm "AAPL" 50 []
  = (Ok (VDict [("status", VStr "simulated");
                ("payload", payload cfg_online_dry "AAPL" 50)]),
     [CheckRiskLimits;
      Log INFO "Placing market order: %s" [payload cfg_online_dry "AAPL" 50];
      Log INFO "[DRY_RUN] Simulated order: %s" [payload cfg_online_dry "AAPL" 50]])
  /\ List.filter is_external
       (snd (place_equity_market cfg_online_dry calm "AAPL" 50 []))
     = [CheckRiskLimits]
  /\ place_equity_market cfg_dry_liquidate breached "AAPL" 50 []
     = (Raised (RuntimeError "Risk check failed - order blocked"),
        [CheckRiskLimits;
         Log ERROR "Risk limits breached: %s" [VStr "daily loss limit"];
         EnforceLimits true])
  /\ place_equity_market cfg_kill calm "AAPL" 50 []
     = (Raised (RuntimeError "Risk check failed - order blocked"),
        [Log ERROR "Kill switch active - blocking orders" []])
  /\ DRY_RUN cfg_online_dry = true /\ DRY_RUN cfg_dry_liquidate = true
  /\ DRY_RUN cfg_kill = true.
Proof. repeat split. Qed.

(** C6 (amended). With [DRY_RUN] on, [place_equity_market] never posts an
    order. It runs the risk check first, and the only collaborator calls
    of the whole call are those of that check (none in offline mode). When
    the check returns [True], the payload is built from the arguments,
    logged, and handed back as [{"status": "simulated", "payload":
    payload}], with only log records after the check and the same result
    whatever the collaborators and the earlier events are; when the check
    denies, [RuntimeError] is raised and nothing is simulated; when it
    raises, its exception goes through. [_simulate_order] itself only logs
    and wraps its argument. *)
Theorem dry_run_simulates (cfg : config) (ext : collaborators)
    (symbol : string) (qty : Z) (t : list event) :
  DRY_RUN cfg = true ->
  place_equity_market cfg ext symbol qty t
  = match risk_ok cfg ext symbol qty VNone t with
    | (Ok true, t') =>
        (Ok (VDict [("status", VStr "simulated");
                    ("payload", payload cfg symbol qty)]),
         t' ++ [Log INFO "Placing market order: %s" [payload cfg symbol qty];
                Log INFO "[DRY_RUN] Simulated order: %s" [payload cfg symbol qty]])
    | (Ok false, t') =>
        (Raised (RuntimeError "Risk check failed - order blocked"), t')
    | (Raised e, t') => (Raised e, t')
    end
  /\ payload cfg symbol qty
     = VDict [ ("accountId", VStr (ACCOUNT_ID cfg));
               ("orderType", VStr "Market");
               ("instrument", VDict [("symbol", VStr symbol); ("assetType", VStr "EQ")]);
               ("quantity", VInt (Z.abs qty));
               ("instruction", VStr (if 0 <? qty then "Buy" else "Sell")) ]
  /\ (forall path body,
         In (ApiPost path body) (snd (place_equity_market cfg ext symbol qty t)) ->
         In (ApiPost path body) t)
  /\ List.filter is_external (snd (place_equity_market cfg ext symbol qty t))
     = List.filter is_external (snd (risk_ok cfg ext symbol qty VNone t))
  /\ (OFFLINE_MODE cfg = true ->
      List.filter is_external (snd (place_equity_market cfg ext symbol qty t))
      = List.filter is_external t)
  /\ (forall ext2 u,
         fst (risk_ok cfg ext symbol qty VNone t) = Ok true ->
         fst (risk_ok cfg ext2 symbol qty VNone u) = Ok true ->
         fst (place_equity_market cfg ext2 symbol qty u)
         = fst (place_equity_market cfg ext symbol qty t))
  /\ (forall p u,
         _simulate_order p u
         = (Ok (VDict [("status", VStr "simulated"); ("payload", p)]),
            u ++ [Log INFO "[DRY_RUN] Simulated order: %s" [p]])).
Proof.
  intros Hd.
  assert (forall ext' u,
             place_equity_market cfg ext' symbol qty u
             = match risk_ok cfg ext' symbol qty VNone u with
               | (Ok true, t') =>
                   (Ok (VDict [("status", VStr "simulated");
                               ("payload", payload cfg symbol qty)]),
                    t' ++ [Log INFO "Placing market order: %s"
                               [payload cfg symbol qty];
                           Log INFO "[DRY_RUN] Simulated order: %s"
                               [payload cfg symbol qty]])
               | (Ok false, t') =>
                   (Raised (RuntimeError "Risk check failed - order blocked"), t')
               | (Raised e, t') => (Raised e, t')
               end) as Hrun.
  { intros ext' u. rewrite place_equity_market_run, Hd. reflexivity. }
  assert (List.filter is_external (snd (place_equity_market cfg ext symbol qty t))
          = List.filter is_external (snd (risk_ok cfg ext symbol qty VNone t)))
    as Hext.
  { rewrite Hrun.
    destruct (risk_ok cfg ext symbol qty VNone t) as [[[|] | e] t']; cbn [snd];
      [now apply filter_external_logs | reflexivity | reflexivity]. }
  split; [apply Hrun |]. split; [reflexivity |].
  split; [| split; [exact Hext | split; [| split]]].
  - intros path body Hin.
    destruct (place_equity_market_trace cfg ext symbol qty t) as (new & Hnew & Hposts).
    rewrite Hd in Hposts. rewrite Hnew in Hin.
    apply in_app_or in Hin as [Hin | Hin]; [exact Hin |].
    apply posted_in_filter in Hin; [| reflexivity].
    rewrite Hposts in Hin. destruct Hin.
  - intros Ho. rewrite Hext. now apply risk_ok_offline_quiet.
  - intros ext2 u Hr Hr2. rewrite (Hrun ext2 u), (Hrun ext t).
    destruct (risk_ok cfg ext symbol qty VNone t) as [r t'].
    destruct (risk_ok cfg ext2 symbol qty VNone u) as [r2 u'].
    cbn [fst] in Hr, Hr2. now subst r r2.
  - reflexivity.
Qed.

Lemma dry_run_simulates_witness :
  place_equity_market cfg_offline_dry breached "AAPL" (-50) []
  = (Ok (VDict [("status", VStr "simulated");
                ("payload", payload cfg_offline_dry "AAPL" (-50))]),
     [Log INFO "OFFLINE_MODE=true -> skipping broker risk checks" [];
      Log INFO "Placing market order: %s" [payload cfg_offline_dry "AAPL" (-50)];
      Log INFO "[DRY_RUN] Simulated order: %s" [payload cfg_offline_dry "AAPL" (-50)]])
  /\ List.filter is_external
       (snd (place_equity_market cfg_offline_dry breached "AAPL" (-50) []))
     = List.filter is_external [].
Proof.
  pose proof (dry_run_simulates cfg_offline_dry breached "AAPL" (-50) [] eq_refl)
    as (Hrun & _ & _ & _ & Hoff & _).
  split; [exact Hrun | apply Hoff; reflexivity].
Defined.

(** C8 (as stated, refuted). With the kill switch on, a sized quantity of
    zero is replaced by 1 and handed on, but the order is not submitted:
    the risk check blocks it and the call raises. *)
Lemma atr_fallback_blocked_counterexample :
  position_size_by_atr_answer calm "AAPL" VNone VNone [] = Ok 0
  /\ place_equity_size_by_atr cfg_kill_live calm "AAPL" VNone VNone []
     = (Raised (RuntimeError "Risk check failed - order blocked"),
        [PositionSizeByAtr "AAPL" VNone VNone;
         Log INFO "Computed qty=%s by ATR sizing for %s" [VInt 0; VStr "AAPL"];
         Log ERROR "Kill switch active - blocking orders" []])
  /\ List.filter is_post
       (snd (place_equity_size_by_atr cfg_kill_live calm "AAPL" VNone VNone []))
     = [].
Proof. repeat split. Qed.

(** C8 (amended). [place_equity_size_by_atr] logs the quantity the sizer
    hands back and never skips the trade: a quantity of zero or less is
    replaced by 1, a positive one is used unchanged, and the order goes
    through the risk check of [place_equity_market] like any other. When
    [risk_ok] returns [True] it is submitted as a "Buy" of that quantity,
    simulated under [DRY_RUN] and posted to "/v1/accounts/orders"
    otherwise; when [risk_ok] denies, [RuntimeError] is raised and nothing
    is submitted; when it raises, its exception goes through. *)
Theorem atr_minimum_quantity (cfg : config) (ext : collaborators)
    (symbol : string) (risk_per_trade stop_atr_mult : value)
    (t : list event) (q : Z) :
  position_size_by_atr_answer ext symbol risk_per_trade stop_atr_mult t = Ok q ->
  let quantity := if q <=? 0 then 1 else q in
  let sized :=
    t ++ [PositionSizeByAtr symbol risk_per_trade stop_atr_mult;
          Log INFO "Computed qty=%s by ATR sizing for %s" [VInt q; VStr symbol]] in
  let order :=
    VDict [ ("accountId", VStr (ACCOUNT_ID cfg));
            ("orderType", VStr "Market");
            ("instrument", VDict [("symbol", VStr symbol); ("assetType", VStr "EQ")]);
            ("quantity", VInt quantity);
            ("instruction", VStr "Buy") ] in
  place_equity_size_by_atr cfg ext symbol risk_per_trade stop_atr_mult t
  = match risk_ok cfg ext symbol quantity VNone sized with
    | (Ok true, t') =>
        if DRY_RUN cfg then
          (Ok (VDict [("status", VStr "simulated"); ("payload", order)]),
           t' ++ [Log INFO "Placing market order: %s" [order];
                  Log INFO "[DRY_RUN] Simulated order: %s" [order]])
        else
          (api_post_answer ext "/v1/accounts/orders" order
             (t' ++ [Log INFO "Placing market order: %s" [order]]),
           t' ++ [Log INFO "Placing market order: %s" [order];
                  ApiPost "/v1/accounts/orders" order])
    | (Ok false, t') =>
        (Raised (RuntimeError "Risk check failed - order blocked"), t')
    | (Raised e, t') => (Raised e, t')
    end
  /\ (q <= 0 -> quantity = 1)
  /\ (0 < q -> quantity = q).
Proof.
  intros Hq quantity sized order.
  assert (quantity = if 0 <? q then q else 1) as Hsame
    by (subst quantity; destruct (Z.leb_spec q 0); destruct (Z.ltb_spec 0 q); lia).
  assert (1 <= quantity) as Hone
    by (subst quantity; destruct (Z.leb_spec q 0); lia).
  split; [| split; subst quantity; destruct (Z.leb_spec q 0); lia].
  rewrite (size_by_atr_run cfg ext symbol risk_per_trade stop_atr_mult t q Hq).
  rewrite <- Hsame. fold sized.
  rewrite place_equity_market_run, (payload_buy cfg symbol quantity Hone).
  reflexivity.
Qed.

Lemma atr_minimum_quantity_witness :
  place_equity_size_by_atr cfg_live calm "AAPL" VNone VNone []
  = (Ok (VDict [("orderId", VInt 1)]),
     [PositionSizeByAtr "AAPL" VNone VNone;
      Log INFO "Computed qty=%s by ATR sizing for %s" [VInt 0; VStr "AAPL"];
      CheckRiskLimits;
      Log INFO "Placing market order: %s" [payload cfg_live "AAPL" 1];
      ApiPost "/v1/accounts/orders" (payload cfg_live "AAPL" 1)]).
Proof.
  exact (proj1 (atr_minimum_quantity cfg_live calm "AAPL" VNone VNone [] 0 eq_refl)).
Defined.
